(** * Academic Workflow Suite: the Python SDK client and the feedback formatter

    A shallow embedding of

    - [examples/api/python/awap_sdk/__init__.py]: [MarkingResult.from_dict]
      and the [AwapClient] methods ([_request], [upload_tma],
      [submit_for_marking], [get_job_status], [get_results],
      [wait_for_completion], [mark_tma]);
    - [examples/plugins/custom-feedback-formatter/plugin.py]: the
      [FeedbackFormatterPlugin] and its five formatters;

    together with the part of the Python run time they lean on: JSON-native
    values, [str]/[repr], [dict.get], subscripting, iteration, [json.dumps]
    with [indent=2] and [json.loads].

    Conventions.
    - A Python [str] is a [string]; a character stands for the code point of
      the same number (0..255).
    - A Python [int] is a [Z].  A Python [float] is a binary64 [float]; the two
      CPython primitives that turn one into text and back ([float.__repr__]
      and [float()]) are parameters of the development.
    - A [dict] is an association list in insertion order, the order in which
      [json.dumps] writes its keys.
    - The wall clock counts milliseconds.
    - The limits of the interpreter (recursion depth, the digit limit of
      the conversions between [int] and [str]) are not modelled. *)

From Stdlib Require Import ZArith List String Ascii Bool Lia Floats.
From Stdlib Require Import Decimal DecimalFacts DecimalPos DecimalZ DecimalString.
Import ListNotations.

#[local] Set Warnings "-register-all".
#[local] Open Scope string_scope.
#[local] Open Scope Z_scope.

(** ** Text helpers *)

(** The double quote and the line feed, as one-character strings. *)
Definition dq : string := String (ascii_of_nat 34) EmptyString.
Definition nl : string := String (ascii_of_nat 10) EmptyString.

(** [str(n)] for a Python [int]. *)
Definition str_of_Z (z : Z) : string := NilZero.string_of_int (Z.to_int z).

(** [sep.join(parts)]. *)
Fixpoint join (sep : string) (parts : list string) : string :=
  match parts with
  | [] => ""
  | [p] => p
  | p :: rest => p ++ sep ++ join sep rest
  end.

(** [s * n] for a string [s]. *)
Fixpoint str_mul (s : string) (n : nat) : string :=
  match n with
  | O => ""
  | S n' => s ++ str_mul s n'
  end.

Fixpoint str_contains (c : ascii) (s : string) : bool :=
  match s with
  | EmptyString => false
  | String c' s' => Ascii.eqb c c' || str_contains c s'
  end.

(** [s[i:]] where [i = s.rfind('/') + 1], as [posixpath.basename] does. *)
Fixpoint basename_from (s : string) (acc : string) : string :=
  match s with
  | EmptyString => acc
  | String c s' =>
      if Ascii.eqb c "/" then basename_from s' s' else basename_from s' acc
  end.

Definition basename (p : string) : string := basename_from p p.

Definition hex_digit (n : nat) : ascii :=
  nth n (list_ascii_of_string "0123456789abcdef") "0"%char.

(** Two lower-case hexadecimal digits of a code point below 256. *)
Definition hex2 (c : ascii) : string :=
  let n := nat_of_ascii c in
  String (hex_digit (n / 16)) (String (hex_digit (n mod 16)) EmptyString).

(** ** Python values *)

(** The values [json.loads] (hence [response.json()]) can produce. *)
Inductive pyval : Type :=
| PNone
| PBool (b : bool)
| PInt (z : Z)
| PFloat (f : float)
| PStr (s : string)
| PList (items : list pyval)
| PDict (kvs : list (string * pyval)).

(** Induction on a value together with the values nested in it. *)
Fixpoint pyval_nested_ind (P : pyval -> Prop)
    (HNone : P PNone) (HBool : forall b, P (PBool b))
    (HInt : forall z, P (PInt z)) (HFloat : forall f, P (PFloat f))
    (HStr : forall s, P (PStr s))
    (HList : forall items, Forall P items -> P (PList items))
    (HDict : forall kvs, Forall (fun kv => P (snd kv)) kvs -> P (PDict kvs))
    (v : pyval) {struct v} : P v :=
  match v with
  | PNone => HNone
  | PBool b => HBool b
  | PInt z => HInt z
  | PFloat f => HFloat f
  | PStr s => HStr s
  | PList items =>
      HList items
        ((fix all (l : list pyval) : Forall P l :=
            match l with
            | [] => Forall_nil P
            | x :: l' =>
                Forall_cons x
                  (pyval_nested_ind P HNone HBool HInt HFloat HStr HList HDict x)
                  (all l')
            end) items)
  | PDict kvs =>
      HDict kvs
        ((fix all (l : list (string * pyval))
            : Forall (fun kv => P (snd kv)) l :=
            match l with
            | [] => Forall_nil _
            | kv :: l' =>
                Forall_cons kv
                  (pyval_nested_ind P HNone HBool HInt HFloat HStr HList HDict
                     (snd kv))
                  (all l')
            end) kvs)
  end.

(** Exceptions the two programs raise or let through. *)
Inductive exn : Type :=
| FileNotFoundError (message : string)
| IsADirectoryError (path : string)
| AwapAPIError (message : string) (status_code : option Z)
| AwapTimeoutError (message : string)
| JSONDecodeError
| AttributeError (attribute : string)
| KeyError (key : string)
| TypeError (what : string)
| ValueError (what : string).

Inductive result (A : Type) : Type :=
| Ok (a : A)
| Raise (e : exn).

Arguments Ok {A} a.
Arguments Raise {A} e.

Definition bind_result {A B} (r : result A) (k : A -> result B) : result B :=
  match r with
  | Ok a => k a
  | Raise e => Raise e
  end.

Declare Scope result_scope.
Delimit Scope result_scope with result.
Notation "x <-- c ; k" := (bind_result c (fun x => k))
  (at level 61, c at next level, right associativity) : result_scope.

(** First binding of [key], as a [dict] built from distinct keys has it. *)
Fixpoint dict_lookup (key : string) (kvs : list (string * pyval)) : option pyval :=
  match kvs with
  | [] => None
  | (k, v) :: rest => if String.eqb k key then Some v else dict_lookup key rest
  end.

(** The value [d.get(key, default)] has for a [dict] with the bindings
    [kvs]. *)
Definition get_default (key : string) (kvs : list (string * pyval))
    (default : pyval) : pyval :=
  match dict_lookup key kvs with
  | Some v => v
  | None => default
  end.

(** [d.get(key, default)]: only a [dict] has the method. *)
Definition py_get (d : pyval) (key : string) (default : pyval) : result pyval :=
  match d with
  | PDict kvs =>
      Ok (get_default key kvs default)
  | _ => Raise (AttributeError "get")
  end.

(** [d[key]] for a string key. *)
Definition py_getitem (d : pyval) (key : string) : result pyval :=
  match d with
  | PDict kvs =>
      match dict_lookup key kvs with
      | Some v => Ok v
      | None => Raise (KeyError key)
      end
  | PStr _ => Raise (TypeError "string indices must be integers")
  | PList _ => Raise (TypeError "list indices must be integers or slices")
  | _ => Raise (TypeError "object is not subscriptable")
  end.

(** [bool(v)]. *)
Definition py_truthy (v : pyval) : bool :=
  match v with
  | PNone => false
  | PBool b => b
  | PInt z => negb (z =? 0)
  | PFloat f => negb (PrimFloat.eqb f 0%float)
  | PStr s => negb (String.eqb s "")
  | PList l => match l with [] => false | _ => true end
  | PDict kvs => match kvs with [] => false | _ => true end
  end.

(** [v == s] for a string literal [s]. *)
Definition py_eq_str (v : pyval) (s : string) : bool :=
  match v with
  | PStr s' => String.eqb s' s
  | _ => false
  end.

(** [iter(v)]: the items a [for] loop visits. *)
Definition py_iter (v : pyval) : result (list pyval) :=
  match v with
  | PList l => Ok l
  | PStr s => Ok (map (fun c => PStr (String c EmptyString)) (list_ascii_of_string s))
  | PDict kvs => Ok (map (fun kv => PStr (fst kv)) kvs)
  | _ => Raise (TypeError "object is not iterable")
  end.

(** [repr(s)] for a [str]: single quotes unless the text has a single quote
    and no double quote; the quote and the backslash are escaped, tab, line
    feed and carriage return get their short escapes, and what is not
    printable is written [\xhh]. *)
Definition repr_char (quote : ascii) (c : ascii) : string :=
  let n := nat_of_ascii c in
  if Ascii.eqb c quote || Ascii.eqb c "\" then String "\" (String c EmptyString)
  else if Nat.eqb n 9 then "\t"
  else if Nat.eqb n 10 then "\n"
  else if Nat.eqb n 13 then "\r"
  else if Nat.ltb n 32 || Nat.eqb n 127 then "\x" ++ hex2 c
  else if Nat.ltb n 127 then String c EmptyString
  else if Nat.leb n 160 || Nat.eqb n 173 then "\x" ++ hex2 c
  else String c EmptyString.

Definition py_repr_str (s : string) : string :=
  let quote :=
    if str_contains "'" s && negb (str_contains (ascii_of_nat 34) s)
    then ascii_of_nat 34 else "'"%char in
  String quote
    (concat "" (map (repr_char quote) (list_ascii_of_string s))
     ++ String quote EmptyString).

(** ** Data classes of the SDK *)

Module Feedback.
(** [@dataclass class Feedback]; the fields hold whatever they are given. *)
Record t : Type := mk {
  summary : pyval;
  strengths : pyval;
  areas_for_improvement : pyval;
  detailed_comments : pyval
}.
End Feedback.

Module MarkingResult.
(** [@dataclass class MarkingResult]. *)
Record t : Type := mk {
  tma_id : pyval;
  student_id : pyval;
  score : pyval;
  grade : pyval;
  feedback : Feedback.t;
  marked_at : pyval
}.

#[local] Open Scope result_scope.

(** [MarkingResult.from_dict(data)]: the feedback block is read with
    [get] and defaults, the five top-level fields by subscript, in the
    order of the keyword arguments. *)
Definition from_dict (data : pyval) : result t :=
  feedback_data <-- py_get data "feedback" (PDict []);
  summary <-- py_get feedback_data "summary" (PStr "");
  strengths <-- py_get feedback_data "strengths" (PList []);
  areas_for_improvement <--
    py_get feedback_data "areas_for_improvement" (PList []);
  detailed_comments <-- py_get feedback_data "detailed_comments" (PList []);
  let feedback :=
    Feedback.mk summary strengths areas_for_improvement detailed_comments in
  tma_id <-- py_getitem data "tma_id";
  student_id <-- py_getitem data "student_id";
  score <-- py_getitem data "score";
  grade <-- py_getitem data "grade";
  marked_at <-- py_getitem data "marked_at";
  Ok (mk tma_id student_id score grade feedback marked_at).
End MarkingResult.

(** ** The world the client runs in *)

(** What a path names on the local file system. *)
Inductive fs_entry : Type :=
| RegularFile (content : string)
| Directory.

(** What a request carries: nothing, [json=...], or [files=...] with
    [data=...]. *)
Inductive payload : Type :=
| NoBody
| JsonBody (json : pyval)
| Multipart (filename content content_type : string)
            (data : list (string * string)).

Record Request : Type := mkRequest {
  method : string;
  url : string;
  body : payload;
  request_timeout : Z
}.

(** A [requests.Response]: [json_body] is what [response.json()] returns,
    [None] when the body is not JSON. *)
Record Response : Type := mkResponse {
  status_code : Z;
  reason : string;
  response_url : string;
  json_body : option pyval
}.

(** What [session.request] comes back with: a transport failure (a
    [RequestException] with its text) or a response. *)
Inductive exchange : Type :=
| RequestException (text : string)
| Responded (r : Response).

(** The answer of the remote service and the time the exchange took, in
    milliseconds. *)
Record Reply : Type := mkReply {
  latency : N;
  outcome : exchange
}.

(** The environment: the local file system, and the remote service as a
    function of how many requests it has seen and of the request. *)
Record env : Type := mkEnv {
  path_lookup : string -> option fs_entry;
  remote : nat -> Request -> Reply
}.

(** The state the client changes: the wall clock (milliseconds) and the
    requests issued so far, oldest first. *)
Record world : Type := mkWorld {
  now : Z;
  sent : list Request
}.

Module AwapClient.
(** The attributes [__init__] sets. *)
Record t : Type := mk {
  api_url : string;
  timeout : Z;
  verify_ssl : bool
}.

(** [AwapClient(api_url, timeout, verify_ssl)];  [getenv] is the value of
    [AWS_API_URL] in the process environment. *)
Definition __init__ (getenv : option string) (api_url : option string)
    (timeout : Z) (verify_ssl : bool) : t :=
  let fallback :=
    match getenv with Some u => u | None => "http://localhost:8080" end in
  mk (match api_url with
      | Some u => if String.eqb u "" then fallback else u
      | None => fallback
      end)
     timeout verify_ssl.
End AwapClient.

(** ** A state and exception monad for the client *)

Definition sdk (A : Type) : Type := world -> result A * world.

Definition ret {A} (a : A) : sdk A := fun w => (Ok a, w).

Definition raise {A} (e : exn) : sdk A := fun w => (Raise e, w).

Definition lift {A} (r : result A) : sdk A := fun w => (r, w).

Definition bind {A B} (m : sdk A) (k : A -> sdk B) : sdk B :=
  fun w =>
    match m w with
    | (Ok a, w') => k a w'
    | (Raise e, w') => (Raise e, w')
    end.

Declare Scope sdk_scope.
Delimit Scope sdk_scope with sdk.
Notation "x <- c ;; k" := (bind c (fun x => k))
  (at level 61, c at next level, right associativity) : sdk_scope.
Notation "c ;;; k" := (bind c (fun _ => k))
  (at level 61, right associativity) : sdk_scope.

(** [response.raise_for_status()]: the text of the [HTTPError], if any. *)
Definition raise_for_status (r : Response) : option string :=
  if (400 <=? status_code r) && (status_code r <? 500) then
    Some (str_of_Z (status_code r) ++ " Client Error: " ++ reason r
          ++ " for url: " ++ response_url r)
  else if (500 <=? status_code r) && (status_code r <? 600) then
    Some (str_of_Z (status_code r) ++ " Server Error: " ++ reason r
          ++ " for url: " ++ response_url r)
  else None.

(** [bool(response)] is [response.ok]: no error status. *)
Definition Response_bool (r : Response) : bool :=
  match raise_for_status r with
  | None => true
  | Some _ => false
  end.

(** [response.json()]. *)
Definition Response_json (r : Response) : sdk pyval :=
  match json_body r with
  | Some v => ret v
  | None => raise JSONDecodeError
  end.

(** [timeout or self.timeout]. *)
Definition or_timeout (timeout : option Z) (self_timeout : Z) : Z :=
  match timeout with
  | Some t => if t =? 0 then self_timeout else t
  | None => self_timeout
  end.

Definition time_time : sdk Z := fun w => (Ok (now w), w).

(** [time.sleep(secs)]. *)
Definition time_sleep (secs : Z) : sdk unit :=
  fun w =>
    if secs <? 0 then (Raise (ValueError "sleep length must be non-negative"), w)
    else (Ok tt, mkWorld (now w + 1000 * secs) (sent w)).

(** ** The formatter plugin's attributes *)

Module FeedbackFormatterPlugin.
(** [self.config] and [self.format_type]. *)
Record t : Type := mk {
  config : list (string * pyval);
  format_type : pyval
}.

(** [FeedbackFormatterPlugin(config)]: [config or {}], then
    [config.get('format', 'markdown')]. *)
Definition __init__ (config : option (list (string * pyval))) : t :=
  let config := match config with Some c => c | None => [] end in
  mk config (get_default "format" config (PStr "markdown")).
End FeedbackFormatterPlugin.

Section Suite.

(** [float.__repr__] and [float(text)]: CPython primitives, kept abstract. *)
Variable float_repr : float -> string.
Variable float_of_literal : string -> float.

(** [repr(v)]. *)
Fixpoint py_repr (v : pyval) : string :=
  match v with
  | PNone => "None"
  | PBool true => "True"
  | PBool false => "False"
  | PInt z => str_of_Z z
  | PFloat f => float_repr f
  | PStr s => py_repr_str s
  | PList l => "[" ++ join ", " (map py_repr l) ++ "]"
  | PDict kvs =>
      "{" ++ join ", "
               (map (fun kv => let '(k, x) := kv in
                               py_repr_str k ++ ": " ++ py_repr x) kvs)
          ++ "}"
  end.

(** [str(v)], which is what an f-string field [{v}] inserts. *)
Definition py_str (v : pyval) : string :=
  match v with
  | PStr s => s
  | _ => py_repr v
  end.

(** ** The client: [class AwapClient] *)

Section Client.

Variable E : env.

#[local] Open Scope sdk_scope.

(** [self.session.request(method, url, timeout=30, **kwargs)]: one exchange
    with the remote service; the clock advances by its latency. *)
Definition session_request (req : Request) : world -> exchange * world :=
  fun w =>
    let reply := remote E (List.length (sent w)) req in
    (outcome reply, mkWorld (now w + Z.of_N (latency reply)) (sent w ++ [req])%list).

(** [_request]: an [HTTPError] and any other [RequestException] become an
    [AwapAPIError].  The status code is taken from [e.response] only when
    [e.response] is truthy. *)
Definition _request (self : AwapClient.t) (method endpoint : string)
    (kwargs : payload) : sdk Response :=
  fun w =>
    let url := AwapClient.api_url self ++ endpoint in
    match session_request (mkRequest method url kwargs 30) w with
    | (RequestException text, w') =>
        (Raise (AwapAPIError ("Request failed: " ++ text) None), w')
    | (Responded response, w') =>
        match raise_for_status response with
        | Some e =>
            (Raise (AwapAPIError ("API request failed: " ++ e)
                      (if Response_bool response
                       then Some (status_code response) else None)), w')
        | None => (Ok response, w')
        end
    end.

(** [upload_tma(file_path, student_id, rubric)]. *)
Definition upload_tma (self : AwapClient.t) (file_path student_id rubric : string)
    : sdk pyval :=
  match path_lookup E file_path with
  | None => raise (FileNotFoundError ("TMA file not found: " ++ file_path))
  | Some Directory => raise (IsADirectoryError file_path)
  | Some (RegularFile f) =>
      let files := Multipart (basename file_path) f "application/pdf" in
      let data := [("student_id", student_id); ("rubric", rubric)] in
      response <- _request self "POST" "/api/v1/tma/upload" (files data) ;;
      result <- Response_json response ;;
      tma_id <- lift (py_get result "tma_id" PNone) ;;
      if negb (py_truthy tma_id)
      then raise (AwapAPIError "No TMA ID returned from upload" None)
      else ret tma_id
  end.

(** [submit_for_marking(tma_id, rubric, auto_feedback)].  The identifier is
    whatever [upload_tma] returned; it is formatted into the path. *)
Definition submit_for_marking (self : AwapClient.t) (tma_id : pyval)
    (rubric : string) (auto_feedback : bool) : sdk pyval :=
  response <- _request self "POST" ("/api/v1/tma/" ++ py_str tma_id ++ "/mark")
                (JsonBody (PDict [("rubric", PStr rubric);
                                  ("auto_feedback", PBool auto_feedback)])) ;;
  result <- Response_json response ;;
  job_id <- lift (py_get result "job_id" PNone) ;;
  if negb (py_truthy job_id)
  then raise (AwapAPIError "No job ID returned" None)
  else ret job_id.

(** [get_job_status(job_id)]. *)
Definition get_job_status (self : AwapClient.t) (job_id : pyval) : sdk pyval :=
  response <- _request self "GET" ("/api/v1/jobs/" ++ py_str job_id) NoBody ;;
  Response_json response.

(** [get_results(tma_id)]. *)
Definition get_results (self : AwapClient.t) (tma_id : pyval)
    : sdk MarkingResult.t :=
  response <- _request self "GET" ("/api/v1/tma/" ++ py_str tma_id ++ "/results")
                NoBody ;;
  data <- Response_json response ;;
  lift (MarkingResult.from_dict data).

(** One turn of the [while True] loop of [wait_for_completion]: [Some s] is
    [return s], [None] falls through to the next turn. *)
Definition wait_turn (self : AwapClient.t) (job_id : pyval)
    (poll_interval timeout start_time : Z) : sdk (option pyval) :=
  t <- time_time ;;
  let elapsed := t - start_time in
  if elapsed >? 1000 * timeout then
    raise (AwapTimeoutError
             ("Job did not complete within " ++ str_of_Z timeout ++ " seconds"))
  else
    status_data <- get_job_status self job_id ;;
    status <- lift (py_get status_data "status" PNone) ;;
    if py_eq_str status "completed" then ret (Some status)
    else if py_eq_str status "failed" then
      error <- lift (py_get status_data "error" (PStr "Unknown error")) ;;
      raise (AwapAPIError ("Job failed: " ++ py_str error) None)
    else
      time_sleep poll_interval ;;;
      ret None.

(** The loop, with [fuel] bounding the number of turns; [None] when the
    bound is reached. *)
Fixpoint wait_loop (fuel : nat) (self : AwapClient.t) (job_id : pyval)
    (poll_interval timeout start_time : Z) (w : world)
    : option (result pyval * world) :=
  match fuel with
  | O => None
  | S fuel' =>
      match wait_turn self job_id poll_interval timeout start_time w with
      | (Raise e, w') => Some (Raise e, w')
      | (Ok (Some status), w') => Some (Ok status, w')
      | (Ok None, w') =>
          wait_loop fuel' self job_id poll_interval timeout start_time w'
      end
  end.

(** [wait_for_completion(job_id, poll_interval, timeout)]. *)
Definition wait_for_completion (fuel : nat) (self : AwapClient.t)
    (job_id : pyval) (poll_interval : Z) (timeout : option Z) (w : world)
    : option (result pyval * world) :=
  let timeout := or_timeout timeout (AwapClient.timeout self) in
  let start_time := now w in
  wait_loop fuel self job_id poll_interval timeout start_time w.

(** [mark_tma(file_path, student_id, rubric, wait)]. *)
Definition mark_tma (fuel : nat) (self : AwapClient.t)
    (file_path student_id rubric : string) (wait : bool) (w : world)
    : option (result MarkingResult.t * world) :=
  match upload_tma self file_path student_id rubric w with
  | (Raise e, w1) => Some (Raise e, w1)
  | (Ok tma_id, w1) =>
      match submit_for_marking self tma_id rubric true w1 with
      | (Raise e, w2) => Some (Raise e, w2)
      | (Ok job_id, w2) =>
          if negb wait then
            Some (Ok (MarkingResult.mk tma_id (PStr student_id)
                        (PFloat 0%float) (PStr "")
                        (Feedback.mk (PStr "") (PList []) (PList []) (PList []))
                        (PStr "")), w2)
          else
            match wait_for_completion fuel self job_id 5 None w2 with
            | None => None
            | Some (Raise e, w3) => Some (Raise e, w3)
            | Some (Ok _, w3) => Some (get_results self tma_id w3)
            end
      end
  end.

(** The request [_request] builds, and the world after the exchange. *)
Definition request_of (self : AwapClient.t) (method endpoint : string)
    (kwargs : payload) : Request :=
  mkRequest method (AwapClient.api_url self ++ endpoint) kwargs 30.

Definition after_exchange (req : Request) (w : world) : world :=
  mkWorld (now w + Z.of_N (latency (remote E (List.length (sent w)) req)))
          (sent w ++ [req])%list.

(** The upload, marking and polling requests, as the client sends them. *)
Definition upload_request (self : AwapClient.t)
    (file_path f student_id rubric : string) : Request :=
  request_of self "POST" "/api/v1/tma/upload"
    (Multipart (basename file_path) f "application/pdf"
       [("student_id", student_id); ("rubric", rubric)]).

Definition mark_request (self : AwapClient.t) (tma_id : pyval)
    (rubric : string) (auto_feedback : bool) : Request :=
  request_of self "POST" ("/api/v1/tma/" ++ py_str tma_id ++ "/mark")
    (JsonBody (PDict [("rubric", PStr rubric);
                      ("auto_feedback", PBool auto_feedback)])).

Definition poll_request (self : AwapClient.t) (job_id : pyval) : Request :=
  request_of self "GET" ("/api/v1/jobs/" ++ py_str job_id) NoBody.

Definition results_request (self : AwapClient.t) (tma_id : pyval) : Request :=
  request_of self "GET" ("/api/v1/tma/" ++ py_str tma_id ++ "/results") NoBody.

End Client.


(** ** [json.dumps(obj, indent=2)] *)

(** One character of [encode_basestring_ascii]: the quote and the backslash
    are escaped, backspace, form feed, line feed, carriage return and tab get
    their short escapes, and whatever else lies outside [' '..'~'] is
    written [\u00hh]. *)
Definition json_escape_char (c : ascii) : string :=
  let n := nat_of_ascii c in
  if Nat.eqb n 34 then String "\" dq
  else if Nat.eqb n 92 then "\\"
  else if Nat.eqb n 8 then "\b"
  else if Nat.eqb n 12 then "\f"
  else if Nat.eqb n 10 then "\n"
  else if Nat.eqb n 13 then "\r"
  else if Nat.eqb n 9 then "\t"
  else if Nat.ltb n 32 || Nat.ltb 126 n then "\u00" ++ hex2 c
  else String c EmptyString.

Fixpoint json_escape (s : string) : string :=
  match s with
  | EmptyString => EmptyString
  | String c s' => json_escape_char c ++ json_escape s'
  end.

Definition encode_basestring_ascii (s : string) : string :=
  dq ++ json_escape s ++ dq.

(** [floatstr]: the three special values by name, any other float by its
    [repr]. *)
Definition floatstr (f : float) : string :=
  if negb (PrimFloat.eqb f f) then "NaN"
  else if PrimFloat.eqb f infinity then "Infinity"
  else if PrimFloat.eqb f neg_infinity then "-Infinity"
  else float_repr f.

(** A line feed followed by [level] times the two-space indent. *)
Definition newline_indent (level : nat) : string :=
  nl ++ str_mul "  " level.

(** The encoder at nesting depth [level]: an empty list or dict is [[]] or
    [{}]; otherwise every item goes on a line of its own, one level deeper,
    items are separated by a comma, a key is followed by a colon and a
    space, and the closing bracket goes on a line of its own. *)
Fixpoint json_encode (level : nat) (o : pyval) : string :=
  match o with
  | PNone => "null"
  | PBool true => "true"
  | PBool false => "false"
  | PInt z => str_of_Z z
  | PFloat f => floatstr f
  | PStr s => encode_basestring_ascii s
  | PList [] => "[]"
  | PList items =>
      "[" ++ newline_indent (S level)
          ++ join ("," ++ newline_indent (S level))
                  (map (json_encode (S level)) items)
          ++ newline_indent level ++ "]"
  | PDict [] => "{}"
  | PDict kvs =>
      "{" ++ newline_indent (S level)
          ++ join ("," ++ newline_indent (S level))
                  (map (fun kv => let '(k, x) := kv in
                                  encode_basestring_ascii k ++ ": "
                                  ++ json_encode (S level) x) kvs)
          ++ newline_indent level ++ "}"
  end.

Definition json_dumps (obj : pyval) : string := json_encode 0 obj.

(** ** The formatter plugin: [class FeedbackFormatterPlugin] *)

Section Formatters.

#[local] Open Scope result_scope.

(** [sequence + text] where [text] must be a [str]. *)
Definition str_add (output : string) (v : pyval) : result string :=
  match v with
  | PStr s => Ok (output ++ s)
  | _ => Raise (TypeError "can only concatenate str to str")
  end.

(** [for x in items: output += line(x)]. *)
Definition for_each (items : list pyval) (line : pyval -> string)
    (output : string) : string :=
  fold_left (fun output x => output ++ line x) items output.

(** [for i, x in enumerate(items, start): output += line(i, x)]. *)
Fixpoint for_each_enumerate (items : list pyval) (start : Z)
    (line : Z -> pyval -> string) (output : string) : string :=
  match items with
  | [] => output
  | x :: rest => for_each_enumerate rest (start + 1) line (output ++ line start x)
  end.

(** [results['feedback'][key]], then [iter] of it, as a [for] statement
    evaluates its iterable. *)
Definition feedback_items (results : pyval) (key : string) : result (list pyval) :=
  feedback <-- py_getitem results "feedback";
  items <-- py_getitem feedback key;
  py_iter items.

(** [_format_markdown(results)]. *)
Definition _format_markdown (results : pyval) : result string :=
  let output := "# Assignment Feedback" ++ nl ++ nl in
  student_id <-- py_getitem results "student_id";
  let output := output ++ "**Student ID:** " ++ py_str student_id ++ nl in
  marked_at <-- py_getitem results "marked_at";
  let output := output ++ "**Date:** " ++ py_str marked_at ++ nl ++ nl in
  let output := output ++ "## Grade" ++ nl ++ nl in
  score <-- py_getitem results "score";
  let output := output ++ "**Score:** " ++ py_str score ++ "/100" ++ nl in
  grade <-- py_getitem results "grade";
  let output := output ++ "**Grade:** " ++ py_str grade ++ nl ++ nl in
  feedback <-- py_getitem results "feedback";
  summary <-- py_getitem feedback "summary";
  let output := output ++ "## Summary" ++ nl ++ nl ++ py_str summary ++ nl ++ nl in
  let output := output ++ "## Strengths" ++ nl ++ nl in
  strengths <-- feedback_items results "strengths";
  let output :=
    for_each strengths (fun strength => "- " ++ py_str strength ++ nl) output in
  let output := output ++ nl ++ "## Areas for Improvement" ++ nl ++ nl in
  areas <-- feedback_items results "areas_for_improvement";
  let output :=
    for_each areas (fun area => "- " ++ py_str area ++ nl) output in
  Ok output.

(** [_format_html(results)]. *)
Definition _format_html (results : pyval) : result string :=
  student_id <-- py_getitem results "student_id";
  marked_at <-- py_getitem results "marked_at";
  grade <-- py_getitem results "grade";
  score <-- py_getitem results "score";
  feedback <-- py_getitem results "feedback";
  summary <-- py_getitem feedback "summary";
  let output := "
<!DOCTYPE html>
<html>
<head>
    <title>Assignment Feedback</title>
    <style>
        body { font-family: Arial, sans-serif; max-width: 800px; margin: 0 auto; padding: 20px; }
        h1 { color: #333; }
        .grade { font-size: 2em; color: #4CAF50; }
        .section { margin: 20px 0; }
        ul { list-style-type: disc; margin-left: 20px; }
    </style>
</head>
<body>
    <h1>Assignment Feedback</h1>
    <p><strong>Student ID:</strong> " ++ py_str student_id ++ "</p>
    <p><strong>Date:</strong> " ++ py_str marked_at ++ "</p>

    <div class=" ++ dq ++ "section" ++ dq ++ ">
        <h2>Grade</h2>
        <p class=" ++ dq ++ "grade" ++ dq ++ ">" ++ py_str grade ++ " (" ++ py_str score ++ "/100)</p>
    </div>

    <div class=" ++ dq ++ "section" ++ dq ++ ">
        <h2>Summary</h2>
        <p>" ++ py_str summary ++ "</p>
    </div>

    <div class=" ++ dq ++ "section" ++ dq ++ ">
        <h2>Strengths</h2>
        <ul>
" in
  strengths <-- feedback_items results "strengths";
  let output :=
    for_each strengths
      (fun strength => "            <li>" ++ py_str strength ++ "</li>" ++ nl)
      output in
  let output := output ++ "        </ul>
    </div>

    <div class=" ++ dq ++ "section" ++ dq ++ ">
        <h2>Areas for Improvement</h2>
        <ul>
" in
  areas <-- feedback_items results "areas_for_improvement";
  let output :=
    for_each areas
      (fun area => "            <li>" ++ py_str area ++ "</li>" ++ nl)
      output in
  let output := output ++ "        </ul>
    </div>
</body>
</html>
" in
  Ok output.

(** [_format_latex(results)]: the fields are spliced with [+], so each must
    be a [str], except the score, which goes through [str()]. *)
Definition _format_latex (results : pyval) : result string :=
  let output := "\documentclass{article}
\usepackage[utf8]{inputenc}
\usepackage{enumitem}

\title{Assignment Feedback}
\author{Academic Workflow Suite}
\date{" in
  marked_at <-- py_getitem results "marked_at";
  output <-- str_add output marked_at;
  let output := output ++ "}

\begin{document}

\maketitle

\section*{Student Information}
\textbf{Student ID:} " in
  student_id <-- py_getitem results "student_id";
  output <-- str_add output student_id;
  let output := output ++ "

\section*{Grade}
\textbf{Score:} " in
  score <-- py_getitem results "score";
  let output := output ++ py_str score in
  let output := output ++ "/100 \\
\textbf{Grade:} " in
  grade <-- py_getitem results "grade";
  output <-- str_add output grade;
  let output := output ++ "

\section*{Summary}
" in
  feedback <-- py_getitem results "feedback";
  summary <-- py_getitem feedback "summary";
  output <-- str_add output summary;
  let output := output ++ "

\section*{Strengths}
\begin{itemize}
" in
  strengths <-- feedback_items results "strengths";
  let output :=
    for_each strengths
      (fun strength => "    \item " ++ py_str strength ++ nl) output in
  let output := output ++ "\end{itemize}

\section*{Areas for Improvement}
\begin{itemize}
" in
  areas <-- feedback_items results "areas_for_improvement";
  let output :=
    for_each areas (fun area => "    \item " ++ py_str area ++ nl) output in
  let output := output ++ "\end{itemize}

\end{document}
" in
  Ok output.

(** [_format_plain(results)]. *)
Definition _format_plain (results : pyval) : result string :=
  let output := "ASSIGNMENT FEEDBACK" ++ nl in
  let output := output ++ str_mul "=" 50 ++ nl ++ nl in
  student_id <-- py_getitem results "student_id";
  let output := output ++ "Student ID: " ++ py_str student_id ++ nl in
  marked_at <-- py_getitem results "marked_at";
  let output := output ++ "Date: " ++ py_str marked_at ++ nl ++ nl in
  grade <-- py_getitem results "grade";
  score <-- py_getitem results "score";
  let output :=
    output ++ "GRADE: " ++ py_str grade ++ " (" ++ py_str score ++ "/100)"
           ++ nl ++ nl in
  feedback <-- py_getitem results "feedback";
  summary <-- py_getitem feedback "summary";
  let output :=
    output ++ "SUMMARY" ++ nl ++ str_mul "-" 50 ++ nl ++ py_str summary
           ++ nl ++ nl in
  let output := output ++ "STRENGTHS" ++ nl ++ str_mul "-" 50 ++ nl in
  strengths <-- feedback_items results "strengths";
  let output :=
    for_each_enumerate strengths 1
      (fun i strength => str_of_Z i ++ ". " ++ py_str strength ++ nl) output in
  let output :=
    output ++ nl ++ "AREAS FOR IMPROVEMENT" ++ nl ++ str_mul "-" 50 ++ nl in
  areas <-- feedback_items results "areas_for_improvement";
  let output :=
    for_each_enumerate areas 1
      (fun i area => str_of_Z i ++ ". " ++ py_str area ++ nl) output in
  Ok output.

(** [_format_json(results)]. *)
Definition _format_json (results : pyval) : result string :=
  Ok (json_dumps results).

(** The [formatters] table of [format_feedback]. *)
Definition formatters : list (string * (pyval -> result string)) :=
  [("markdown", _format_markdown);
   ("html", _format_html);
   ("latex", _format_latex);
   ("plain", _format_plain);
   ("json", _format_json)].

Fixpoint formatters_lookup (key : string)
    (table : list (string * (pyval -> result string)))
    : option (pyval -> result string) :=
  match table with
  | [] => None
  | (k, f) :: rest => if String.eqb k key then Some f else formatters_lookup key rest
  end.

(** [formatters.get(key, default)]: a list or a dict cannot be hashed, and
    only a string can equal one of the keys. *)
Definition formatters_get (key : pyval) (default : pyval -> result string)
    : result (pyval -> result string) :=
  match key with
  | PList _ | PDict _ => Raise (TypeError "unhashable type")
  | PStr s =>
      Ok (match formatters_lookup s formatters with
          | Some f => f
          | None => default
          end)
  | _ => Ok default
  end.

(** [format_feedback(results)]. *)
Definition format_feedback (self : FeedbackFormatterPlugin.t) (results : pyval)
    : result string :=
  formatter <-- formatters_get (FeedbackFormatterPlugin.format_type self)
                  _format_markdown;
  formatter results.

(** The fields the four text formatters read by subscript: five of the
    record and three of its [feedback]. *)
Definition required_fields : list string :=
  ["student_id"; "marked_at"; "score"; "grade"; "feedback"].

Definition required_feedback_fields : list string :=
  ["summary"; "strengths"; "areas_for_improvement"].

Definition absent (kvs : list (string * pyval)) (key : string) : bool :=
  match dict_lookup key kvs with
  | Some _ => false
  | None => true
  end.

(** A record that lacks one of those fields. *)
Definition missing_required (results : pyval) : bool :=
  match results with
  | PDict kvs =>
      existsb (absent kvs) required_fields
      || match dict_lookup "feedback" kvs with
         | Some (PDict fb) => existsb (absent fb) required_feedback_fields
         | _ => false
         end
  | _ => false
  end.

(** What a successful text formatter has read. *)
Definition reads_all (results : pyval) : Prop :=
  exists kvs fb v1 v2 v3 v4 v5 v6 v7,
    results = PDict kvs
    /\ dict_lookup "student_id" kvs = Some v1
    /\ dict_lookup "marked_at" kvs = Some v2
    /\ dict_lookup "score" kvs = Some v3
    /\ dict_lookup "grade" kvs = Some v4
    /\ dict_lookup "feedback" kvs = Some (PDict fb)
    /\ dict_lookup "summary" fb = Some v5
    /\ dict_lookup "strengths" fb = Some v6
    /\ dict_lookup "areas_for_improvement" fb = Some v7.

(** The exceptions a failed subscript, concatenation or iteration raises. *)
Definition field_error (e : exn) : Prop :=
  match e with
  | KeyError _ | TypeError _ => True
  | _ => False
  end.

(** The five styles [format_feedback] knows. *)
Definition known_styles : list string :=
  ["markdown"; "html"; "latex"; "plain"; "json"].

(** The formatter [format_feedback] picks for a style given as a string. *)
Definition formatter_of (style : string) : pyval -> result string :=
  if String.eqb "markdown" style then _format_markdown
  else if String.eqb "html" style then _format_html
  else if String.eqb "latex" style then _format_latex
  else if String.eqb "plain" style then _format_plain
  else if String.eqb "json" style then _format_json
  else _format_markdown.

End Formatters.

(** ** [json.loads] *)

Section Decoder.

(** The JSON white space: space, tab, line feed, carriage return. *)
Definition is_ws (c : ascii) : bool :=
  let n := nat_of_ascii c in
  Nat.eqb n 32 || Nat.eqb n 9 || Nat.eqb n 10 || Nat.eqb n 13.

Fixpoint skip_ws (s : string) : string :=
  match s with
  | EmptyString => EmptyString
  | String c r => if is_ws c then skip_ws r else s
  end.

Definition is_digit (c : ascii) : bool :=
  let n := nat_of_ascii c in
  Nat.leb 48 n && Nat.leb n 57.

(** The value of a hexadecimal digit, in either case. *)
Definition hex_value (c : ascii) : option nat :=
  let n := nat_of_ascii c in
  if Nat.leb 48 n && Nat.leb n 57 then Some (n - 48)%nat
  else if Nat.leb 97 n && Nat.leb n 102 then Some (n - 87)%nat
  else if Nat.leb 65 n && Nat.leb n 70 then Some (n - 55)%nat
  else None.

Definition hex4 (h1 h2 h3 h4 : ascii) : option nat :=
  match hex_value h1, hex_value h2, hex_value h3, hex_value h4 with
  | Some a, Some b, Some c, Some d => Some (((a * 16 + b) * 16 + c) * 16 + d)%nat
  | _, _, _, _ => None
  end.

(** The [BACKSLASH] table of the decoder. *)
Definition BACKSLASH (esc : ascii) : option ascii :=
  let n := nat_of_ascii esc in
  if Nat.eqb n 34 then Some esc
  else if Nat.eqb n 92 then Some esc
  else if Nat.eqb n 47 then Some esc
  else if Nat.eqb n 98 then Some (ascii_of_nat 8)
  else if Nat.eqb n 102 then Some (ascii_of_nat 12)
  else if Nat.eqb n 110 then Some (ascii_of_nat 10)
  else if Nat.eqb n 114 then Some (ascii_of_nat 13)
  else if Nat.eqb n 116 then Some (ascii_of_nat 9)
  else None.

Definition cons_char (c : ascii) (r : option (string * string))
    : option (string * string) :=
  match r with
  | Some (str, rest) => Some (String c str, rest)
  | None => None
  end.

(** [scanstring], strict, on the text after the opening quote: the string
    and the text after the closing quote.  A control character, an unknown
    escape, an unfinished string fail; so does a [\uXXXX] for a code point
    above 255, which a [string] cannot hold. *)
Fixpoint scanstring (s : string) : option (string * string) :=
  match s with
  | EmptyString => None
  | String c r =>
      if Nat.eqb (nat_of_ascii c) 34 then Some (EmptyString, r)
      else if Nat.eqb (nat_of_ascii c) 92 then
        match r with
        | EmptyString => None
        | String esc r1 =>
            if Nat.eqb (nat_of_ascii esc) 117 then
              match r1 with
              | String h1 (String h2 (String h3 (String h4 r2))) =>
                  match hex4 h1 h2 h3 h4 with
                  | Some n =>
                      if Nat.ltb n 256
                      then cons_char (ascii_of_nat n) (scanstring r2)
                      else None
                  | None => None
                  end
              | _ => None
              end
            else
              match BACKSLASH esc with
              | Some ch => cons_char ch (scanstring r1)
              | None => None
              end
        end
      else if Nat.ltb (nat_of_ascii c) 32 then None
      else cons_char c (scanstring r)
  end.

(** The longest run of digits at the head of [s], and what follows. *)
Fixpoint take_digits (s : string) : string * string :=
  match s with
  | EmptyString => (EmptyString, EmptyString)
  | String c r =>
      if is_digit c
      then let (ds, rest) := take_digits r in (String c ds, rest)
      else (EmptyString, s)
  end.

Definition is_empty (s : string) : bool :=
  match s with
  | EmptyString => true
  | String _ _ => false
  end.

(** The three groups of [NUMBER_RE].  The first: an optional minus sign,
    then either a lone [0] or a digit other than [0] with the digits that
    follow it.  The second, optional: a dot and at least one digit.  The
    third, optional: [e] or [E], an optional sign and at least one digit. *)
Definition match_integer (s : string) : option (string * string) :=
  let (sign, s1) :=
    match s with
    | String c r => if Nat.eqb (nat_of_ascii c) 45 then ("-", r) else ("", s)
    | EmptyString => ("", s)
    end in
  match s1 with
  | EmptyString => None
  | String c r =>
      if Nat.eqb (nat_of_ascii c) 48 then Some (sign ++ "0", r)
      else if is_digit c then
        let (ds, rest) := take_digits r in Some (sign ++ String c ds, rest)
      else None
  end.

Definition match_frac (s : string) : option string * string :=
  match s with
  | EmptyString => (None, s)
  | String c r =>
      if Nat.eqb (nat_of_ascii c) 46 then
        let (ds, rest) := take_digits r in
        if is_empty ds then (None, s) else (Some (String c ds), rest)
      else (None, s)
  end.

Definition match_exp (s : string) : option string * string :=
  match s with
  | EmptyString => (None, s)
  | String e r =>
      if Nat.eqb (nat_of_ascii e) 101 || Nat.eqb (nat_of_ascii e) 69 then
        let (sign, r1) :=
          match r with
          | String c r' =>
              if Nat.eqb (nat_of_ascii c) 45 || Nat.eqb (nat_of_ascii c) 43
              then (String c EmptyString, r') else ("", r)
          | EmptyString => ("", r)
          end in
        let (ds, rest) := take_digits r1 in
        if is_empty ds then (None, s) else (Some (String e (sign ++ ds)), rest)
      else (None, s)
  end.

(** [int(text)] for the text of the first group. *)
Definition int_of_text (text : string) : Z :=
  match NilZero.int_of_string text with
  | Some d => Z.of_int d
  | None => 0
  end.

Definition or_empty (group : option string) : string :=
  match group with
  | Some g => g
  | None => ""
  end.

(** A number at the head of [s]: an [int] when only the first group
    matched, a [float] otherwise. *)
Definition match_number (s : string) : option (pyval * string) :=
  match match_integer s with
  | None => None
  | Some (integer, s1) =>
      let (frac, s2) := match_frac s1 in
      let (exp, s3) := match_exp s2 in
      match frac, exp with
      | None, None => Some (PInt (int_of_text integer), s3)
      | _, _ =>
          Some (PFloat (float_of_literal (integer ++ or_empty frac ++ or_empty exp)),
                s3)
      end
  end.

(** [s] without the prefix [p], when it has it. *)
Fixpoint strip_prefix (p s : string) : option string :=
  match p with
  | EmptyString => Some s
  | String c p' =>
      match s with
      | EmptyString => None
      | String c' s' => if Ascii.eqb c c' then strip_prefix p' s' else None
      end
  end.

(** What is neither a string, an object nor an array: the three names, a
    number, or one of the three special floats. *)
Definition scan_scalar (s : string) : option (pyval * string) :=
  match strip_prefix "null" s with
  | Some r => Some (PNone, r)
  | None =>
  match strip_prefix "true" s with
  | Some r => Some (PBool true, r)
  | None =>
  match strip_prefix "false" s with
  | Some r => Some (PBool false, r)
  | None =>
  match match_number s with
  | Some found => Some found
  | None =>
  match strip_prefix "NaN" s with
  | Some r => Some (PFloat nan, r)
  | None =>
  match strip_prefix "Infinity" s with
  | Some r => Some (PFloat infinity, r)
  | None =>
  match strip_prefix "-Infinity" s with
  | Some r => Some (PFloat neg_infinity, r)
  | None => None
  end end end end end end end.

(** [d[key] = v] on a dict in insertion order. *)
Fixpoint dict_set (kvs : list (string * pyval)) (key : string) (v : pyval)
    : list (string * pyval) :=
  match kvs with
  | [] => [(key, v)]
  | (k, x) :: rest =>
      if String.eqb k key then (k, v) :: rest else (k, x) :: dict_set rest key v
  end.

(** [dict(pairs)]. *)
Definition dict_of_pairs (pairs : list (string * pyval)) : list (string * pyval) :=
  fold_left (fun d kv => dict_set d (fst kv) (snd kv)) pairs [].

(** [scan_once], [JSONArray] and [JSONObject].  [fuel] bounds the depth of
    the calls; [None] is a [JSONDecodeError] (or the bound).  [scan_items]
    starts at an item and ends after the closing bracket; [scan_pairs]
    starts after the opening quote of a key and ends after the closing
    brace. *)
Fixpoint scan_once (fuel : nat) (s : string) : option (pyval * string) :=
  match fuel with
  | O => None
  | S fuel' =>
      match s with
      | EmptyString => None
      | String c r =>
          if Nat.eqb (nat_of_ascii c) 34 then
            match scanstring r with
            | Some (str, rest) => Some (PStr str, rest)
            | None => None
            end
          else if Nat.eqb (nat_of_ascii c) 123 then
            match skip_ws r with
            | String c1 r1 =>
                if Nat.eqb (nat_of_ascii c1) 125 then Some (PDict [], r1)
                else if Nat.eqb (nat_of_ascii c1) 34 then
                  match scan_pairs fuel' r1 with
                  | Some (pairs, rest) => Some (PDict (dict_of_pairs pairs), rest)
                  | None => None
                  end
                else None
            | EmptyString => None
            end
          else if Nat.eqb (nat_of_ascii c) 91 then
            match skip_ws r with
            | String c1 r1 =>
                if Nat.eqb (nat_of_ascii c1) 93 then Some (PList [], r1)
                else
                  match scan_items fuel' (String c1 r1) with
                  | Some (items, rest) => Some (PList items, rest)
                  | None => None
                  end
            | EmptyString => None
            end
          else scan_scalar s
      end
  end

with scan_items (fuel : nat) (s : string) : option (list pyval * string) :=
  match fuel with
  | O => None
  | S fuel' =>
      match scan_once fuel' s with
      | None => None
      | Some (value, r) =>
          match skip_ws r with
          | String c r1 =>
              if Nat.eqb (nat_of_ascii c) 93 then Some ([value], r1)
              else if Nat.eqb (nat_of_ascii c) 44 then
                match scan_items fuel' (skip_ws r1) with
                | Some (values, rest) => Some (value :: values, rest)
                | None => None
                end
              else None
          | EmptyString => None
          end
      end
  end

with scan_pairs (fuel : nat) (s : string)
    : option (list (string * pyval) * string) :=
  match fuel with
  | O => None
  | S fuel' =>
      match scanstring s with
      | None => None
      | Some (key, r) =>
          match skip_ws r with
          | String c r1 =>
              if Nat.eqb (nat_of_ascii c) 58 then
                match scan_once fuel' (skip_ws r1) with
                | None => None
                | Some (value, r2) =>
                    match skip_ws r2 with
                    | String c2 r3 =>
                        if Nat.eqb (nat_of_ascii c2) 125
                        then Some ([(key, value)], r3)
                        else if Nat.eqb (nat_of_ascii c2) 44 then
                          match skip_ws r3 with
                          | String c3 r4 =>
                              if Nat.eqb (nat_of_ascii c3) 34 then
                                match scan_pairs fuel' r4 with
                                | Some (pairs, rest) =>
                                    Some ((key, value) :: pairs, rest)
                                | None => None
                                end
                              else None
                          | EmptyString => None
                          end
                        else None
                    | EmptyString => None
                    end
                end
              else None
          | EmptyString => None
          end
      end
  end.

(** [json.loads(s)]: one value, white space allowed around it and nothing
    else. *)
Definition json_loads (s : string) : option pyval :=
  match scan_once (S (String.length s)) (skip_ws s) with
  | Some (obj, rest) => if is_empty (skip_ws rest) then Some obj else None
  | None => None
  end.

(** ** The JSON values the round trip is stated for *)

(** No binary float anywhere in the value. *)
Fixpoint float_free (v : pyval) : bool :=
  match v with
  | PFloat _ => false
  | PList items => forallb float_free items
  | PDict kvs => forallb (fun kv => let '(_, x) := kv in float_free x) kvs
  | _ => true
  end.

Fixpoint distinct (keys : list string) : bool :=
  match keys with
  | [] => true
  | k :: rest => negb (existsb (String.eqb k) rest) && distinct rest
  end.

(** Every dict in the value has distinct keys, as a Python [dict] has. *)
Fixpoint keys_distinct (v : pyval) : bool :=
  match v with
  | PList items => forallb keys_distinct items
  | PDict kvs =>
      distinct (map fst kvs)
      && forallb (fun kv => let '(_, x) := kv in keys_distinct x) kvs
  | _ => true
  end.

(** The number of nested calls the decoder makes for a value. *)
Fixpoint size (v : pyval) : nat :=
  match v with
  | PList items => S (fold_right (fun x n => S (size x + n)) O items)
  | PDict kvs =>
      S (fold_right (fun kv n => let '(_, x) := kv in S (size x + n)) O kvs)
  | _ => 1
  end.

(** What follows a value in the encoder's output: nothing, a comma or a
    line feed. *)
Definition value_end (rest : string) : bool :=
  match rest with
  | EmptyString => true
  | String c _ => Nat.eqb (nat_of_ascii c) 44 || Nat.eqb (nat_of_ascii c) 10
  end.

(** How the text of an integer starts: with a digit or a minus sign. *)
Definition number_start (s : string) : bool :=
  match s with
  | EmptyString => false
  | String c _ => is_digit c || Nat.eqb (nat_of_ascii c) 45
  end.

(** How the text of a value starts: not with white space, a closing
    bracket or a closing brace. *)
Definition value_start (s : string) : bool :=
  match s with
  | EmptyString => false
  | String c _ =>
      negb (is_ws c) && negb (Nat.eqb (nat_of_ascii c) 93)
      && negb (Nat.eqb (nat_of_ascii c) 125)
  end.

(** The decoder reads a value back from the encoder's text for it, at any
    nesting depth and before any text the encoder may put after a value. *)
Definition reads_back (v : pyval) : Prop :=
  forall (level : nat) (rest : string) (fuel : nat),
    (size v <= fuel)%nat ->
    value_end rest = true ->
    scan_once fuel (json_encode level v ++ rest) = Some (v, rest).

(** The decoder reads the text the encoder writes for the float [f] back as
    [f].  For a float other than the three special values this is a
    property of the two CPython primitives. *)
Definition float_reads_back (f : float) : Prop :=
  forall (rest : string) (fuel : nat),
    value_end rest = true ->
    scan_once (S fuel) (floatstr f ++ rest) = Some (PFloat f, rest).

(** Every float in the value is read back. *)
Fixpoint floats_read_back (v : pyval) : Prop :=
  match v with
  | PFloat f => float_reads_back f
  | PList items =>
      (fix all (l : list pyval) : Prop :=
         match l with
         | [] => True
         | x :: l' => floats_read_back x /\ all l'
         end) items
  | PDict kvs =>
      (fix all (l : list (string * pyval)) : Prop :=
         match l with
         | [] => True
         | (_, x) :: l' => floats_read_back x /\ all l'
         end) kvs
  | _ => True
  end.

(** The separator between two items at nesting depth [level]. *)
Definition item_separator (level : nat) : string :=
  "," ++ newline_indent level.

(** The text of one [key: value] pair at nesting depth [level]. *)
Definition encode_pair (level : nat) (kv : string * pyval) : string :=
  let '(k, x) := kv in
  encode_basestring_ascii k ++ ": " ++ json_encode level x.

End Decoder.

(** ** Further definitions: the exception hierarchy and the SDK's caller *)

(** [isinstance(e, AwapError)]: the two subclasses the SDK declares. *)
Definition is_AwapError (e : exn) : bool :=
  match e with
  | AwapAPIError _ _ | AwapTimeoutError _ => true
  | _ => false
  end.

(** The [feedback_dict] that [main] of [examples/mark_tma.py] builds from the
    result of [mark_tma] before saving it. *)
Definition feedback_dict (result : MarkingResult.t) : pyval :=
  PDict [("tma_id", MarkingResult.tma_id result);
         ("student_id", MarkingResult.student_id result);
         ("score", MarkingResult.score result);
         ("grade", MarkingResult.grade result);
         ("feedback",
          PDict [("summary",
                  Feedback.summary (MarkingResult.feedback result));
                 ("strengths",
                  Feedback.strengths (MarkingResult.feedback result));
                 ("areas_for_improvement",
                  Feedback.areas_for_improvement (MarkingResult.feedback result));
                 ("detailed_comments",
                  Feedback.detailed_comments (MarkingResult.feedback result))]);
         ("marked_at", MarkingResult.marked_at result)].

(** The ten values a result holds. *)
Definition result_values (result : MarkingResult.t) : list pyval :=
  [MarkingResult.tma_id result; MarkingResult.student_id result;
   MarkingResult.score result; MarkingResult.grade result;
   Feedback.summary (MarkingResult.feedback result);
   Feedback.strengths (MarkingResult.feedback result);
   Feedback.areas_for_improvement (MarkingResult.feedback result);
   Feedback.detailed_comments (MarkingResult.feedback result);
   MarkingResult.marked_at result].

(** What [iter] accepts. *)
Definition iterable (v : pyval) : bool :=
  match v with
  | PList _ | PStr _ | PDict _ => true
  | _ => false
  end.

Definition is_str (v : pyval) : bool :=
  match v with
  | PStr _ => true
  | _ => false
  end.

(** A record the markdown, HTML and plain formatters can format: the five
    fields are there, [feedback] is an object with its three fields, and the
    two lists can be iterated. *)
Definition formattable (results : pyval) : bool :=
  match results with
  | PDict kvs =>
      negb (absent kvs "student_id") && negb (absent kvs "marked_at")
      && negb (absent kvs "score") && negb (absent kvs "grade")
      && match dict_lookup "feedback" kvs with
         | Some (PDict fb) =>
             negb (absent fb "summary")
             && iterable (get_default "strengths" fb PNone)
             && iterable (get_default "areas_for_improvement" fb PNone)
         | _ => false
         end
  | _ => false
  end.

(** What the LaTeX formatter asks on top of that: the four fields it
    splices with [+] are strings. *)
Definition latex_formattable (results : pyval) : bool :=
  formattable results
  && match results with
     | PDict kvs =>
         is_str (get_default "marked_at" kvs PNone)
         && is_str (get_default "student_id" kvs PNone)
         && is_str (get_default "grade" kvs PNone)
         && match dict_lookup "feedback" kvs with
            | Some (PDict fb) => is_str (get_default "summary" fb PNone)
            | _ => false
            end
     | _ => false
     end.

(** The number of requests a run has issued. *)
Definition requests_issued (before after : world) : Z :=
  Z.of_nat (List.length (sent after)) - Z.of_nat (List.length (sent before)).

(** The service answers the request [req], issued in the world [w], with the
    response [r], whose status is 2xx. *)
Definition answers (E : env) (w : world) (req : Request) (r : Response) : Prop :=
  outcome (remote E (List.length (sent w)) req) = Responded r
  /\ 200 <= status_code r < 300.

(** The service never reports the job [job_id] as finished: every poll,
    whenever it is made, is answered 2xx with a JSON object whose status is
    neither [completed] nor [failed]. *)
Definition never_terminal (E : env) (self : AwapClient.t) (job_id : pyval)
    : Prop :=
  forall n : nat,
    exists r kvs,
      outcome (remote E n (request_of self "GET"
                             ("/api/v1/jobs/" ++ py_str job_id) NoBody))
      = Responded r
      /\ 200 <= status_code r < 300
      /\ json_body r = Some (PDict kvs)
      /\ py_eq_str (get_default "status" kvs PNone) "completed" = false
      /\ py_eq_str (get_default "status" kvs PNone) "failed" = false.

Definition is_timeout {A : Type} (r : result A) : bool :=
  match r with
  | Raise (AwapTimeoutError _) => true
  | _ => false
  end.

(** ** Concrete environments and records used by the examples *)

(** A stand-in for [float.__repr__] where no float is ever formatted. *)
Definition sample_float_repr (f : float) : string := "0.0".

(** A stand-in for [float(text)] where no float literal is ever read. *)
Definition sample_float_of_literal (s : string) : float := 0%float.

Definition sample_client : AwapClient.t :=
  AwapClient.__init__ None (Some "http://localhost:8080") 300 true.

Definition world0 : world := mkWorld 0 [].

Definition respond_json (u : string) (v : pyval) : Reply :=
  mkReply 0 (Responded (mkResponse 200 "OK" u (Some v))).

(** No file anywhere, and a service that is never reached. *)
Definition empty_env : env :=
  mkEnv (fun _ => None) (fun _ _ => mkReply 0 (RequestException "unreachable")).

(** A service whose job stays [running] for ever; every exchange is
    instantaneous. *)
Definition stalled_env : env :=
  mkEnv (fun _ => None)
        (fun _ req => respond_json (url req) (PDict [("status", PStr "running")])).

(** A service whose job has failed with the error [disk full]. *)
Definition failing_env : env :=
  mkEnv (fun _ => None)
        (fun _ req =>
           respond_json (url req)
             (PDict [("status", PStr "failed"); ("error", PStr "disk full")])).

(** A service whose job is completed at the first poll. *)
Definition completed_env : env :=
  mkEnv (fun _ => None)
        (fun _ req => respond_json (url req) (PDict [("status", PStr "completed")])).

(** A service that accepts the file [essay.pdf] and the marking request. *)
Definition accepting_env : env :=
  mkEnv (fun p => if String.eqb p "essay.pdf" then Some (RegularFile "%PDF-1.4")
                  else None)
        (fun n req =>
           respond_json (url req)
             (match n with
              | O => PDict [("tma_id", PStr "tma_123456")]
              | _ => PDict [("job_id", PStr "job_1")]
              end)).

(** A service that stores [essay.pdf] but answers with empty objects. *)
Definition forgetful_env : env :=
  mkEnv (fun p => if String.eqb p "essay.pdf" then Some (RegularFile "%PDF-1.4")
                  else None)
        (fun _ req => respond_json (url req) (PDict [])).

(** A results response without a [feedback] object, and one with a partial
    [feedback] object but without [grade]. *)
Definition sample_response_no_feedback : list (string * pyval) :=
  [("tma_id", PStr "tma_123456"); ("student_id", PStr "student001");
   ("score", PInt 85); ("grade", PStr "B+");
   ("marked_at", PStr "2024-05-01T10:00:00")].

Definition sample_response_no_grade : list (string * pyval) :=
  [("tma_id", PStr "tma_123456"); ("student_id", PStr "student001");
   ("score", PInt 85);
   ("feedback", PDict [("summary", PStr "Good work")]);
   ("marked_at", PStr "2024-05-01T10:00:00")].

(** The sample record of the plugin's own example. *)
Definition sample_results : pyval :=
  PDict [("tma_id", PStr "tma_123456");
         ("student_id", PStr "student001");
         ("score", PInt 85);
         ("grade", PStr "B+");
         ("marked_at", PStr "2024-05-01T10:00:00");
         ("feedback",
          PDict [("summary",
                  PStr "Good work overall with clear arguments and strong evidence.");
                 ("strengths",
                  PList [PStr "Clear thesis statement";
                         PStr "Good use of supporting evidence";
                         PStr "Logical structure"]);
                 ("areas_for_improvement",
                  PList [PStr "Citation formatting needs attention";
                         PStr "Conclusion could be stronger";
                         PStr "Consider counterarguments"])])].

(** The sample record without its [student_id]. *)
Definition results_without_student_id : pyval :=
  PDict [("tma_id", PStr "tma_123456");
         ("score", PInt 85);
         ("grade", PStr "B+");
         ("marked_at", PStr "2024-05-01T10:00:00");
         ("feedback",
          PDict [("summary", PStr "Good work overall.");
                 ("strengths", PList [PStr "Clear thesis statement"]);
                 ("areas_for_improvement", PList [PStr "Consider counterarguments"])])].

(** A record with a special float in it. *)
Definition results_with_infinity : pyval :=
  PDict [("student_id", PStr "student001"); ("score", PFloat infinity)].

Definition plugin_for (style : string) : FeedbackFormatterPlugin.t :=
  FeedbackFormatterPlugin.__init__ (Some [("format", PStr style)]).

(** ** More concrete environments and records *)

(** A service that stores [essay.pdf] and answers with a page that is not
    JSON. *)
Definition html_env : env :=
  mkEnv (fun p => if String.eqb p "essay.pdf" then Some (RegularFile "%PDF-1.4")
                  else None)
        (fun _ req =>
           mkReply 0 (Responded (mkResponse 200 "OK" (url req) None))).

(** A service that answers every request with [404 Not Found]. *)
Definition not_found_env : env :=
  mkEnv (fun _ => None)
        (fun _ req =>
           mkReply 0 (Responded (mkResponse 404 "Not Found" (url req) None))).

(** A service whose job has failed without saying why. *)
Definition failing_silent_env : env :=
  mkEnv (fun _ => None)
        (fun _ req => respond_json (url req) (PDict [("status", PStr "failed")])).

(** A service that takes [essay.pdf] through the whole workflow: the
    upload, the marking request, one poll and the results, each answered
    after 40 ms. *)
Definition marking_env : env :=
  mkEnv (fun p => if String.eqb p "essay.pdf" then Some (RegularFile "%PDF-1.4")
                  else None)
        (fun n req =>
           mkReply 40
             (Responded
                (mkResponse 200 "OK" (url req)
                   (Some (match n with
                          | 0%nat => PDict [("tma_id", PStr "tma_123456")]
                          | 1%nat => PDict [("job_id", PStr "job_1")]
                          | 2%nat => PDict [("status", PStr "completed")]
                          | _ => sample_results
                          end))))).

(** The same service, for a job that fails. *)
Definition rejecting_env : env :=
  mkEnv (fun p => if String.eqb p "essay.pdf" then Some (RegularFile "%PDF-1.4")
                  else None)
        (fun n req =>
           mkReply 40
             (Responded
                (mkResponse 200 "OK" (url req)
                   (Some (match n with
                          | 0%nat => PDict [("tma_id", PStr "tma_123456")]
                          | 1%nat => PDict [("job_id", PStr "job_1")]
                          | _ => PDict [("status", PStr "failed");
                                        ("error", PStr "disk full")]
                          end))))).

(** A results response whose [feedback] is null. *)
Definition sample_response_null_feedback : pyval :=
  PDict [("tma_id", PStr "tma_123456"); ("student_id", PStr "student001");
         ("score", PInt 85); ("grade", PStr "B+"); ("feedback", PNone);
         ("marked_at", PStr "2024-05-01T10:00:00")].

Definition sample_marking_result : MarkingResult.t :=
  MarkingResult.mk (PStr "tma_123456") (PStr "student001") (PInt 85)
    (PStr "B+")
    (Feedback.mk (PStr "Good work overall.")
       (PList [PStr "Clear thesis statement"])
       (PList [PStr "Consider counterarguments"])
       (PList []))
    (PStr "2024-05-01T10:00:00").

(** The sample record with a number for [student_id]. *)
Definition results_with_numeric_id : pyval :=
  PDict [("student_id", PInt 1001);
         ("score", PInt 85);
         ("grade", PStr "B+");
         ("marked_at", PStr "2024-05-01T10:00:00");
         ("feedback",
          PDict [("summary", PStr "Good work overall.");
                 ("strengths", PList [PStr "Clear thesis statement"]);
                 ("areas_for_improvement", PList [])])].

(** * Properties of the client *)

Section ClientProperties.

Variable E : env.

Lemma gtb_false (a b : Z) : a <= b -> (a >? b) = false.
Proof. intros H. rewrite Z.gtb_ltb. apply Z.ltb_ge. exact H. Qed.

Lemma gtb_true (a b : Z) : b < a -> (a >? b) = true.
Proof. intros H. rewrite Z.gtb_ltb. apply Z.ltb_lt. exact H. Qed.

Lemma raise_for_status_2xx (r : Response) :
  200 <= status_code r < 300 -> raise_for_status r = None.
Proof.
  intros [Hlo Hhi]. unfold raise_for_status.
  destruct (400 <=? status_code r) eqn:H4; [apply Z.leb_le in H4; lia|].
  destruct (500 <=? status_code r) eqn:H5; [apply Z.leb_le in H5; lia|].
  reflexivity.
Qed.

Lemma _request_success (self : AwapClient.t) (method endpoint : string)
    (kwargs : payload) (w : world) (r : Response) :
  outcome (remote E (List.length (sent w)) (request_of self method endpoint kwargs))
  = Responded r ->
  raise_for_status r = None ->
  _request E self method endpoint kwargs w
  = (Ok r, after_exchange E (request_of self method endpoint kwargs) w).
Proof.
  intros Hout Hok. unfold _request, session_request.
  fold (request_of self method endpoint kwargs).
  rewrite Hout, Hok. reflexivity.
Qed.

(** Whatever [_request] does, it issues exactly one request. *)
Lemma _request_world (self : AwapClient.t) (method endpoint : string)
    (kwargs : payload) (w : world) :
  snd (_request E self method endpoint kwargs w)
  = after_exchange E (request_of self method endpoint kwargs) w.
Proof.
  unfold _request, session_request.
  fold (request_of self method endpoint kwargs).
  destruct (outcome _); [reflexivity|].
  destruct (raise_for_status r); reflexivity.
Qed.

(** C5. A path that names nothing on the local file system makes
    [upload_tma] raise [FileNotFoundError] at once: the world is returned
    as it was, so no request has been issued (and no time has passed). *)
Theorem upload_tma_absent_file (self : AwapClient.t)
    (file_path student_id rubric : string) (w : world) :
  path_lookup E file_path = None ->
  upload_tma E self file_path student_id rubric w
  = (Raise (FileNotFoundError ("TMA file not found: " ++ file_path)), w).
Proof.
  intros Habsent. unfold upload_tma. rewrite Habsent. reflexivity.
Qed.


(** A successful upload has found a regular file and issued one request. *)
Lemma upload_tma_ok_world (self : AwapClient.t)
    (file_path student_id rubric : string) (w w1 : world) (tma_id : pyval) :
  upload_tma E self file_path student_id rubric w = (Ok tma_id, w1) ->
  exists f,
    path_lookup E file_path = Some (RegularFile f)
    /\ w1 = after_exchange E (upload_request self file_path f student_id rubric) w.
Proof.
  unfold upload_tma.
  destruct (path_lookup E file_path) as [[f|]|]; try discriminate.
  intros H. exists f. split; [reflexivity|].
  unfold bind in H.
  pose proof (_request_world self "POST" "/api/v1/tma/upload"
                (Multipart (basename file_path) f "application/pdf"
                   [("student_id", student_id); ("rubric", rubric)]) w) as Hw.
  destruct (_request _ _ _ _ _ _) as [[r|e] w']; simpl in Hw; subst w';
    [|discriminate].
  unfold Response_json, ret, raise, lift in H.
  destruct (json_body r); [|discriminate].
  destruct (py_get _ _ _); [|discriminate].
  destruct (negb _); inversion H. reflexivity.
Qed.

(** A successful submission has issued one request. *)
Lemma submit_for_marking_ok_world (self : AwapClient.t) (tma_id : pyval)
    (rubric : string) (auto_feedback : bool) (w w1 : world) (job_id : pyval) :
  submit_for_marking E self tma_id rubric auto_feedback w = (Ok job_id, w1) ->
  w1 = after_exchange E (mark_request self tma_id rubric auto_feedback) w.
Proof.
  unfold submit_for_marking, bind. intros H.
  pose proof (_request_world self "POST"
                ("/api/v1/tma/" ++ py_str tma_id ++ "/mark")
                (JsonBody (PDict [("rubric", PStr rubric);
                                  ("auto_feedback", PBool auto_feedback)])) w)
    as Hw.
  destruct (_request _ _ _ _ _ _) as [[r|e] w']; simpl in Hw; subst w';
    [|discriminate].
  unfold Response_json, ret, raise, lift in H.
  destruct (json_body r); [|discriminate].
  destruct (py_get _ _ _); [|discriminate].
  destruct (negb _); inversion H. reflexivity.
Qed.

(** C4. When the upload and the submission succeed, [mark_tma] with
    [wait=False] returns at once a result that carries the handle the upload
    returned and the caller's student identifier, and otherwise only
    placeholders: score [0.0], empty grade, empty summary, three empty lists
    and an empty [marked_at].  The requests issued are the upload and the
    marking request and nothing else: no poll, no fetch. *)
Theorem mark_tma_no_wait_partial_result (fuel : nat) (self : AwapClient.t)
    (file_path student_id rubric : string) (w w1 w2 : world)
    (tma_id job_id : pyval) :
  upload_tma E self file_path student_id rubric w = (Ok tma_id, w1) ->
  submit_for_marking E self tma_id rubric true w1 = (Ok job_id, w2) ->
  mark_tma E fuel self file_path student_id rubric false w
  = Some (Ok (MarkingResult.mk tma_id (PStr student_id) (PFloat 0%float)
                (PStr "")
                (Feedback.mk (PStr "") (PList []) (PList []) (PList []))
                (PStr "")), w2)
  /\ exists f,
      sent w2
      = (sent w ++ [upload_request self file_path f student_id rubric;
                    mark_request self tma_id rubric true])%list.
Proof.
  intros Hup Hsub. split.
  - unfold mark_tma. rewrite Hup, Hsub. reflexivity.
  - destruct (upload_tma_ok_world _ _ _ _ _ _ _ Hup) as [f [_ Hw1]].
    apply submit_for_marking_ok_world in Hsub.
    exists f. subst w2 w1. simpl. rewrite <- List.app_assoc. reflexivity.
Qed.

(** A turn of the polling loop returns only the string [completed]. *)
Lemma wait_turn_returns_completed (self : AwapClient.t) (job_id : pyval)
    (poll_interval timeout start_time : Z) (w w' : world) (status : pyval) :
  wait_turn E self job_id poll_interval timeout start_time w
  = (Ok (Some status), w') ->
  status = PStr "completed".
Proof.
  unfold wait_turn, bind, time_time, raise, lift, ret. intros H.
  destruct (now w - start_time >? 1000 * timeout); [discriminate|].
  destruct (get_job_status E self job_id w) as [[status_data|e] w1];
    [|discriminate].
  destruct (py_get status_data "status" PNone) as [st|e]; [|discriminate].
  destruct (py_eq_str st "completed") eqn:Hc.
  - inversion H; subst. destruct status; try discriminate.
    simpl in Hc. apply String.eqb_eq in Hc. now subst.
  - destruct (py_eq_str st "failed").
    + destruct (py_get status_data "error" (PStr "Unknown error"));
        discriminate.
    + destruct (time_sleep poll_interval w1) as [[u|e] w2]; discriminate.
Qed.

Lemma wait_loop_returns_completed (fuel : nat) (self : AwapClient.t)
    (job_id : pyval) (poll_interval timeout start_time : Z) :
  forall (w w' : world) (status : pyval),
    wait_loop E fuel self job_id poll_interval timeout start_time w
    = Some (Ok status, w') ->
    status = PStr "completed".
Proof.
  induction fuel as [|fuel IH]; intros w w' status H; [discriminate|].
  simpl in H.
  destruct (wait_turn E self job_id poll_interval timeout start_time w)
    as [[[s|]|e] w1] eqn:Hturn.
  - inversion H; subst.
    eapply wait_turn_returns_completed; eassumption.
  - eapply IH; eassumption.
  - discriminate.
Qed.

(** C9. Whenever [wait_for_completion] returns a value instead of raising,
    the value is the string [completed]. *)
Theorem wait_for_completion_returns_completed (fuel : nat)
    (self : AwapClient.t) (job_id : pyval) (poll_interval : Z)
    (timeout : option Z) (w w' : world) (status : pyval) :
  wait_for_completion E fuel self job_id poll_interval timeout w
  = Some (Ok status, w') ->
  status = PStr "completed".
Proof.
  unfold wait_for_completion. apply wait_loop_returns_completed.
Qed.

(** A turn that falls through hands the world it leaves to the next turn. *)
Lemma wait_loop_next_turn (fuel : nat) (self : AwapClient.t) (job_id : pyval)
    (poll_interval timeout start_time : Z) (w w' : world) :
  wait_turn E self job_id poll_interval timeout start_time w = (Ok None, w') ->
  wait_loop E (S fuel) self job_id poll_interval timeout start_time w
  = wait_loop E fuel self job_id poll_interval timeout start_time w'.
Proof. intros Hturn. cbn [wait_loop]. rewrite Hturn. reflexivity. Qed.

(** A poll that is answered without an error status by a JSON value. *)
Lemma get_job_status_success (self : AwapClient.t) (job_id : pyval)
    (w : world) (r : Response) (status_data : pyval) :
  outcome (remote E (List.length (sent w)) (poll_request self job_id))
  = Responded r ->
  raise_for_status r = None ->
  json_body r = Some status_data ->
  get_job_status E self job_id w
  = (Ok status_data, after_exchange E (poll_request self job_id) w).
Proof.
  intros Hout Hok Hbody. unfold get_job_status, bind.
  unfold poll_request in Hout.
  rewrite (_request_success _ _ _ _ _ r Hout Hok).
  unfold Response_json. rewrite Hbody. reflexivity.
Qed.

(** C2, as the code has it.  At any turn of the polling loop reached before
    the deadline, a poll answered with status [failed] and error text [e]
    makes [wait_for_completion] raise [AwapAPIError] whose message is
    [Job failed: ] followed by [e], unchanged; the error carries no status
    code. *)
Theorem wait_loop_failed_job_message (fuel : nat) (self : AwapClient.t)
    (job_id : pyval) (poll_interval timeout start_time : Z) (w : world)
    (r : Response) (kvs : list (string * pyval)) (e : string) :
  now w - start_time <= 1000 * timeout ->
  outcome (remote E (List.length (sent w)) (poll_request self job_id))
  = Responded r ->
  raise_for_status r = None ->
  json_body r = Some (PDict kvs) ->
  dict_lookup "status" kvs = Some (PStr "failed") ->
  dict_lookup "error" kvs = Some (PStr e) ->
  wait_loop E (S fuel) self job_id poll_interval timeout start_time w
  = Some (Raise (AwapAPIError ("Job failed: " ++ e) None),
          after_exchange E (poll_request self job_id) w).
Proof.
  intros Hdeadline Hout Hok Hbody Hstatus Herror.
  simpl. unfold wait_turn, bind, time_time.
  rewrite gtb_false by exact Hdeadline.
  rewrite (get_job_status_success _ _ _ r _ Hout Hok Hbody).
  unfold lift, py_get, get_default. rewrite Hstatus, Herror. reflexivity.
Qed.

(** A turn whose deadline check fires: nothing is polled. *)
Lemma wait_turn_deadline (self : AwapClient.t) (job_id : pyval)
    (poll_interval timeout start_time : Z) (w : world) :
  1000 * timeout < now w - start_time ->
  wait_turn E self job_id poll_interval timeout start_time w
  = (Raise (AwapTimeoutError
              ("Job did not complete within " ++ str_of_Z timeout ++ " seconds")),
     w).
Proof.
  intros Hlate. unfold wait_turn, bind, time_time.
  rewrite gtb_true by exact Hlate. reflexivity.
Qed.

(** A turn before the deadline whose poll is not terminal: one request,
    then a sleep of the whole poll interval. *)
Lemma wait_turn_not_terminal (self : AwapClient.t) (job_id : pyval)
    (poll_interval timeout start_time : Z) (w : world) (r : Response)
    (kvs : list (string * pyval)) (status : pyval) :
  now w - start_time <= 1000 * timeout ->
  0 <= poll_interval ->
  outcome (remote E (List.length (sent w)) (poll_request self job_id))
  = Responded r ->
  raise_for_status r = None ->
  json_body r = Some (PDict kvs) ->
  get_default "status" kvs PNone = status ->
  py_eq_str status "completed" = false ->
  py_eq_str status "failed" = false ->
  wait_turn E self job_id poll_interval timeout start_time w
  = (Ok None,
     mkWorld (now (after_exchange E (poll_request self job_id) w)
              + 1000 * poll_interval)
             (sent (after_exchange E (poll_request self job_id) w))).
Proof.
  intros Hdeadline Hpos Hout Hok Hbody Hstatus Hnc Hnf.
  unfold wait_turn, bind, time_time.
  rewrite gtb_false by exact Hdeadline.
  rewrite (get_job_status_success _ _ _ r _ Hout Hok Hbody).
  unfold lift, py_get. rewrite Hstatus, Hnc, Hnf.
  unfold time_sleep, ret.
  destruct (poll_interval <? 0) eqn:Hneg; [apply Z.ltb_lt in Hneg; lia|].
  reflexivity.
Qed.

(** C1, as the code has it.  With [poll_interval=5] and [timeout=1], a job
    whose first poll is not terminal makes [wait_for_completion] raise
    [AwapTimeoutError] only at the deadline check that follows one poll and
    one full sleep of five seconds: exactly one request has been issued and
    the clock stands at the latency of that poll plus 5000 ms, so at least a
    full poll interval after the call. *)
Theorem wait_for_completion_timeout_after_sleep (fuel : nat)
    (self : AwapClient.t) (job_id : pyval) (w : world) (r : Response)
    (kvs : list (string * pyval)) (status : pyval) :
  outcome (remote E (List.length (sent w)) (poll_request self job_id))
  = Responded r ->
  raise_for_status r = None ->
  json_body r = Some (PDict kvs) ->
  get_default "status" kvs PNone = status ->
  py_eq_str status "completed" = false ->
  py_eq_str status "failed" = false ->
  exists w',
    wait_for_completion E (S (S fuel)) self job_id 5 (Some 1) w
    = Some (Raise (AwapTimeoutError "Job did not complete within 1 seconds"), w')
    /\ sent w' = (sent w ++ [poll_request self job_id])%list
    /\ now w' - now w
       = Z.of_N (latency (remote E (List.length (sent w))
                            (poll_request self job_id))) + 5000
    /\ 5000 <= now w' - now w.
Proof.
  intros Hout Hok Hbody Hstatus Hnc Hnf.
  unfold wait_for_completion, or_timeout. simpl (if 1 =? 0 then _ else _).
  set (w1 := after_exchange E (poll_request self job_id) w).
  exists (mkWorld (now w1 + 1000 * 5) (sent w1)).
  split; [|split; [reflexivity|split; [simpl; lia|simpl; lia]]].
  cbn [wait_loop].
  rewrite (wait_turn_not_terminal self job_id 5 1 (now w) w r kvs status)
    by (assumption || lia).
  fold w1. rewrite wait_turn_deadline by (subst w1; simpl; lia).
  reflexivity.
Qed.

(** The five fields [from_dict] reads by subscript. *)
Lemma from_dict_dict (kvs fb : list (string * pyval)) :
  (dict_lookup "feedback" kvs = None /\ fb = []
   \/ dict_lookup "feedback" kvs = Some (PDict fb)) ->
  MarkingResult.from_dict (PDict kvs)
  = (tma_id <-- py_getitem (PDict kvs) "tma_id";
     student_id <-- py_getitem (PDict kvs) "student_id";
     score <-- py_getitem (PDict kvs) "score";
     grade <-- py_getitem (PDict kvs) "grade";
     marked_at <-- py_getitem (PDict kvs) "marked_at";
     Ok (MarkingResult.mk tma_id student_id score grade
           (Feedback.mk (get_default "summary" fb (PStr ""))
              (get_default "strengths" fb (PList []))
              (get_default "areas_for_improvement" fb (PList []))
              (get_default "detailed_comments" fb (PList [])))
           marked_at))%result.
Proof.
  intros [[Hnone ->]|Hsome]; unfold MarkingResult.from_dict;
    unfold py_get at 1; unfold get_default at 1.
  - rewrite Hnone. reflexivity.
  - rewrite Hsome. reflexivity.
Qed.

(** C10. [from_dict] treats missing fields in two ways.  When the response
    object has no [feedback], or has a [feedback] object, every feedback
    subfield that is absent is replaced by its default (empty string for
    [summary], empty list for the other three) and the result is built; but
    an absent [tma_id], [student_id], [score], [grade] or [marked_at] makes
    it raise [KeyError] for the first absent one.  [get_results] hands the
    JSON of a successful response to [from_dict] and returns what it
    returns. *)
Theorem from_dict_defaults_feedback_only (kvs fb : list (string * pyval)) :
  (dict_lookup "feedback" kvs = None /\ fb = []
   \/ dict_lookup "feedback" kvs = Some (PDict fb)) ->
  (forall tma_id student_id score grade marked_at,
      dict_lookup "tma_id" kvs = Some tma_id ->
      dict_lookup "student_id" kvs = Some student_id ->
      dict_lookup "score" kvs = Some score ->
      dict_lookup "grade" kvs = Some grade ->
      dict_lookup "marked_at" kvs = Some marked_at ->
      MarkingResult.from_dict (PDict kvs)
      = Ok (MarkingResult.mk tma_id student_id score grade
              (Feedback.mk (get_default "summary" fb (PStr ""))
                 (get_default "strengths" fb (PList []))
                 (get_default "areas_for_improvement" fb (PList []))
                 (get_default "detailed_comments" fb (PList [])))
              marked_at))
  /\ (forall key,
        In key ["tma_id"; "student_id"; "score"; "grade"; "marked_at"] ->
        dict_lookup key kvs = None ->
        exists first,
          In first ["tma_id"; "student_id"; "score"; "grade"; "marked_at"]
          /\ dict_lookup first kvs = None
          /\ MarkingResult.from_dict (PDict kvs) = Raise (KeyError first))
  /\ (forall self tma_id w r,
        outcome (remote E (List.length (sent w)) (results_request self tma_id))
        = Responded r ->
        raise_for_status r = None ->
        json_body r = Some (PDict kvs) ->
        get_results E self tma_id w
        = (MarkingResult.from_dict (PDict kvs),
           after_exchange E (results_request self tma_id) w)).
Proof.
  intros Hfb. split; [|split].
  - intros tma_id student_id score grade marked_at H1 H2 H3 H4 H5.
    rewrite (from_dict_dict kvs fb Hfb). unfold py_getitem, bind_result.
    rewrite H1, H2, H3, H4, H5. reflexivity.
  - intros key Hin Hkey.
    rewrite (from_dict_dict kvs fb Hfb). unfold py_getitem, bind_result.
    destruct (dict_lookup "tma_id" kvs) eqn:H1;
      [|exists "tma_id"; simpl; auto].
    destruct (dict_lookup "student_id" kvs) eqn:H2;
      [|exists "student_id"; simpl; auto].
    destruct (dict_lookup "score" kvs) eqn:H3;
      [|exists "score"; simpl; auto].
    destruct (dict_lookup "grade" kvs) eqn:H4;
      [|exists "grade"; simpl; auto 6].
    destruct (dict_lookup "marked_at" kvs) eqn:H5;
      [|exists "marked_at"; simpl; auto 7].
    simpl in Hin.
    destruct Hin as [<-|[<-|[<-|[<-|[<-|[]]]]]]; congruence.
  - intros self tma_id w r Hout Hok Hbody.
    unfold get_results, bind. unfold results_request in Hout.
    rewrite (_request_success _ _ _ _ _ r Hout Hok).
    unfold Response_json. rewrite Hbody. reflexivity.
Qed.

End ClientProperties.

(** * Properties of the formatter *)

Section FormatterProperties.

Lemma py_getitem_ok (d : pyval) (key : string) (v : pyval) :
  py_getitem d key = Ok v ->
  exists kvs, d = PDict kvs /\ dict_lookup key kvs = Some v.
Proof.
  destruct d; try discriminate. simpl.
  destruct (dict_lookup key kvs) eqn:Hk; [|discriminate].
  intros H. inversion H; subst. eauto.
Qed.

(** Splits a successful [bind]: the first computation succeeded. *)
Ltac bind_ok H :=
  match type of H with
  | bind_result ?c _ = Ok _ =>
      let E := fresh "E" in
      destruct c eqn:E; [cbn [bind_result] in H | discriminate H]
  end.

Lemma reads_all_not_missing (results : pyval) :
  reads_all results -> missing_required results = false.
Proof.
  intros (kvs & fb & v1 & v2 & v3 & v4 & v5 & v6 & v7 & -> & H1 & H2 & H3 & H4
          & H5 & H6 & H7 & H8).
  unfold missing_required, required_fields, required_feedback_fields, existsb,
    absent.
  rewrite H1, H2, H3, H4, H5, H6, H7, H8. reflexivity.
Qed.

(** Collects what the subscripts of a successful run have found. *)
Ltac collect_reads :=
  repeat match goal with
    | H : feedback_items _ _ = Ok _ |- _ =>
        unfold feedback_items in H; repeat bind_ok H
    | H : py_getitem _ _ = Ok _ |- _ =>
        apply py_getitem_ok in H; destruct H as (? & ? & H)
    end;
  repeat match goal with
    | H : PDict _ = PDict _ |- _ => injection H as H; subst
    | H : Ok _ = Ok _ |- _ => injection H as H; subst
    end;
  repeat match goal with
    | H : dict_lookup ?k ?m = Some ?a, H' : dict_lookup ?k ?m = Some ?b |- _ =>
        rewrite H in H'; inversion H'; clear H'; subst
    end;
  unfold reads_all; eauto 20.

Lemma _format_markdown_ok (results : pyval) (text : string) :
  _format_markdown results = Ok text -> reads_all results.
Proof.
  unfold _format_markdown. intros H. cbv zeta in H.
  repeat bind_ok H. collect_reads.
Qed.

Lemma _format_html_ok (results : pyval) (text : string) :
  _format_html results = Ok text -> reads_all results.
Proof.
  unfold _format_html. intros H. cbv zeta in H.
  repeat bind_ok H. collect_reads.
Qed.

Lemma _format_latex_ok (results : pyval) (text : string) :
  _format_latex results = Ok text -> reads_all results.
Proof.
  unfold _format_latex. intros H. cbv zeta in H.
  repeat bind_ok H. collect_reads.
Qed.

Lemma _format_plain_ok (results : pyval) (text : string) :
  _format_plain results = Ok text -> reads_all results.
Proof.
  unfold _format_plain. intros H. cbv zeta in H.
  repeat bind_ok H. collect_reads.
Qed.

Lemma py_getitem_raise (d : pyval) (key : string) (e : exn) :
  py_getitem d key = Raise e -> field_error e.
Proof.
  destruct d; simpl; try (intros H; inversion H; exact I).
  destruct (dict_lookup key kvs); intros H; inversion H; exact I.
Qed.

Lemma py_iter_raise (v : pyval) (e : exn) :
  py_iter v = Raise e -> field_error e.
Proof. destruct v; simpl; intros H; inversion H; exact I. Qed.

Lemma str_add_raise (output : string) (v : pyval) (e : exn) :
  str_add output v = Raise e -> field_error e.
Proof. destruct v; simpl; intros H; inversion H; exact I. Qed.

(** Splits a failed [bind]: either the first computation failed, or it
    succeeded and the rest failed. *)
Ltac bind_raise H :=
  match type of H with
  | bind_result ?c _ = Raise _ =>
      let E := fresh "E" in
      destruct c eqn:E;
      [cbn [bind_result] in H
      |cbn [bind_result] in H; injection H as H; subst]
  end.

Ltac close_raise :=
  match goal with
  | H : py_getitem _ _ = Raise ?e |- field_error ?e =>
      exact (py_getitem_raise _ _ _ H)
  | H : py_iter _ = Raise ?e |- field_error ?e => exact (py_iter_raise _ _ H)
  | H : str_add _ _ = Raise ?e |- field_error ?e =>
      exact (str_add_raise _ _ _ H)
  | H : Ok _ = Raise _ |- _ => discriminate H
  end.

Lemma feedback_items_raise (results : pyval) (key : string) (e : exn) :
  feedback_items results key = Raise e -> field_error e.
Proof.
  unfold feedback_items. intros H.
  repeat (bind_raise H; try close_raise); try close_raise.
Qed.

Ltac formatter_raise H :=
  cbv zeta in H;
  repeat (bind_raise H;
          try close_raise;
          try match goal with
            | H' : feedback_items _ _ = Raise ?e |- field_error ?e =>
                exact (feedback_items_raise _ _ _ H')
            end);
  try close_raise.

Lemma _format_markdown_raise (results : pyval) (e : exn) :
  _format_markdown results = Raise e -> field_error e.
Proof. unfold _format_markdown. intros H. formatter_raise H. Qed.

Lemma _format_html_raise (results : pyval) (e : exn) :
  _format_html results = Raise e -> field_error e.
Proof. unfold _format_html. intros H. formatter_raise H. Qed.

Lemma _format_latex_raise (results : pyval) (e : exn) :
  _format_latex results = Raise e -> field_error e.
Proof. unfold _format_latex. intros H. formatter_raise H. Qed.

Lemma _format_plain_raise (results : pyval) (e : exn) :
  _format_plain results = Raise e -> field_error e.
Proof. unfold _format_plain. intros H. formatter_raise H. Qed.

(** A text formatter given a record that lacks a field it reads raises. *)
Lemma text_formatter_missing (f : pyval -> result string) (results : pyval) :
  (forall text, f results = Ok text -> reads_all results) ->
  (forall e, f results = Raise e -> field_error e) ->
  missing_required results = true ->
  exists e, f results = Raise e /\ field_error e.
Proof.
  intros Hok Hraise Hmissing.
  destruct (f results) as [text|e] eqn:Hrun.
  - rewrite (reads_all_not_missing results (Hok text eq_refl)) in Hmissing.
    discriminate.
  - exists e. split; [reflexivity|]. apply Hraise. reflexivity.
Qed.

Lemma format_feedback_dispatch (self : FeedbackFormatterPlugin.t)
    (style : string) (results : pyval) :
  FeedbackFormatterPlugin.format_type self = PStr style ->
  format_feedback self results = formatter_of style results.
Proof.
  intros Hstyle. unfold format_feedback, formatters_get, formatter_of.
  rewrite Hstyle. cbn [bind_result formatters formatters_lookup].
  destruct (String.eqb "markdown" style); [reflexivity|].
  destruct (String.eqb "html" style); [reflexivity|].
  destruct (String.eqb "latex" style); [reflexivity|].
  destruct (String.eqb "plain" style); [reflexivity|].
  destruct (String.eqb "json" style); reflexivity.
Qed.


(** C8. A style string that is none of [markdown], [html], [latex],
    [plain], [json] makes [format_feedback] return, on every record, exactly
    what it returns for the [markdown] style on that record. *)
Theorem format_feedback_unknown_style_is_markdown
    (self markdown_self : FeedbackFormatterPlugin.t) (style : string)
    (results : pyval) :
  FeedbackFormatterPlugin.format_type self = PStr style ->
  FeedbackFormatterPlugin.format_type markdown_self = PStr "markdown" ->
  ~ In style known_styles ->
  format_feedback self results = format_feedback markdown_self results.
Proof.
  intros Hstyle Hmarkdown Hunknown.
  rewrite (format_feedback_dispatch self style results Hstyle).
  rewrite (format_feedback_dispatch markdown_self "markdown" results Hmarkdown).
  unfold formatter_of, known_styles in *. simpl in Hunknown.
  repeat match goal with
    | |- context [String.eqb ?k style] =>
        let Hk := fresh "Hk" in
        destruct (String.eqb k style) eqn:Hk;
        [apply String.eqb_eq in Hk; exfalso; apply Hunknown; subst; tauto|]
    end.
  reflexivity.
Qed.

End FormatterProperties.

(** * The JSON round trip *)

Section RoundTrip.

Lemma append_assoc (a b c : string) : (a ++ b) ++ c = a ++ b ++ c.
Proof. induction a as [|x a IH]; simpl; [reflexivity|now rewrite IH]. Qed.

Lemma length_append (a b : string) :
  String.length (a ++ b) = (String.length a + String.length b)%nat.
Proof. induction a as [|x a IH]; simpl; [reflexivity|now rewrite IH]. Qed.

(** *** Strings *)

(** Reading back one escaped character. *)
Lemma scanstring_escape_char (c : ascii) (r : string) :
  scanstring (json_escape_char c ++ r) = cons_char c (scanstring r).
Proof.
  destruct c as [[|] [|] [|] [|] [|] [|] [|] [|]]; reflexivity.
Qed.

Lemma scanstring_escape (s rest : string) :
  scanstring (json_escape s ++ dq ++ rest) = Some (s, rest).
Proof.
  induction s as [|c s IH]; cbn [json_escape].
  - reflexivity.
  - rewrite append_assoc, scanstring_escape_char, IH. reflexivity.
Qed.

(** *** Integers *)

Lemma take_digits_end (rest : string) :
  value_end rest = true -> take_digits rest = (EmptyString, rest).
Proof.
  destruct rest as [|c rest]; [reflexivity|]. simpl. intros H.
  unfold is_digit.
  apply orb_true_iff in H as [H|H]; apply Nat.eqb_eq in H; rewrite H;
    reflexivity.
Qed.

Lemma match_frac_end (rest : string) :
  value_end rest = true -> match_frac rest = (None, rest).
Proof.
  destruct rest as [|c rest]; [reflexivity|]. simpl. intros H.
  apply orb_true_iff in H as [H|H]; apply Nat.eqb_eq in H; rewrite H;
    reflexivity.
Qed.

Lemma match_exp_end (rest : string) :
  value_end rest = true -> match_exp rest = (None, rest).
Proof.
  destruct rest as [|c rest]; [reflexivity|]. simpl. intros H.
  apply orb_true_iff in H as [H|H]; apply Nat.eqb_eq in H; rewrite H;
    reflexivity.
Qed.

Lemma take_digits_uint (d : uint) (rest : string) :
  value_end rest = true ->
  take_digits (NilEmpty.string_of_uint d ++ rest)
  = (NilEmpty.string_of_uint d, rest).
Proof.
  intros Hend.
  induction d as [|d IH|d IH|d IH|d IH|d IH|d IH|d IH|d IH|d IH|d IH];
    cbn [NilEmpty.string_of_uint append];
    [now apply take_digits_end|..];
    cbn [take_digits]; rewrite IH; reflexivity.
Qed.

Lemma nzhead_not_D0 (d d' : uint) : nzhead d <> D0 d'.
Proof. induction d; simpl; try discriminate. exact IHd. Qed.

(** The decimal digits of a positive number do not start with [0]. *)
Lemma to_uint_head (p : positive) :
  match Pos.to_uint p with
  | Nil | D0 _ => False
  | _ => True
  end.
Proof.
  pose proof (DecimalPos.Unsigned.to_of (Pos.to_uint p)) as H.
  rewrite DecimalPos.Unsigned.of_to in H. simpl in H.
  pose proof (DecimalPos.Unsigned.to_uint_nonzero p) as Hnz.
  destruct (Pos.to_uint p) as [|u| | | | | | | | | ] eqn:Hp; try exact I.
  - discriminate H.
  - unfold unorm in H. cbn [nzhead] in H.
    destruct (nzhead u) eqn:Hu; try discriminate H.
    + injection H as ->. apply Hnz. reflexivity.
    + exact (nzhead_not_D0 u _ Hu).
Qed.

Lemma int_of_text_str_of_Z (z : Z) : int_of_text (str_of_Z z) = z.
Proof.
  unfold int_of_text, str_of_Z.
  rewrite NilZero.isi.
  - apply DecimalZ.of_to.
  - destruct z; simpl; try discriminate.
    intros [= H]. exact (DecimalPos.Unsigned.to_uint_nonnil _ H).
  - destruct z; simpl; try discriminate.
    intros [= H]. exact (DecimalPos.Unsigned.to_uint_nonnil _ H).
Qed.

(** The text of an integer: an optional minus sign, then the digits, the
    first of which is [0] only when it is the only one. *)
Lemma str_of_Z_shape (z : Z) :
  exists sign d,
    str_of_Z z = sign ++ NilEmpty.string_of_uint d
    /\ (sign = "" \/ sign = "-")
    /\ (d = D0 Nil \/ match d with Nil | D0 _ => False | _ => True end).
Proof.
  unfold str_of_Z. destruct z as [|p|p]; cbn [Z.to_int NilZero.string_of_int].
  - exists "", (D0 Nil). auto.
  - exists "", (Pos.to_uint p). pose proof (to_uint_head p) as Hh.
    split; [|auto]. destruct (Pos.to_uint p); try reflexivity. destruct Hh.
  - exists "-", (Pos.to_uint p). pose proof (to_uint_head p) as Hh.
    split; [|auto]. destruct (Pos.to_uint p); try reflexivity. destruct Hh.
Qed.

Lemma number_start_char (c : ascii) (r : string) :
  number_start (String c r) = true ->
  is_ws c = false
  /\ Nat.eqb (nat_of_ascii c) 34 = false
  /\ Nat.eqb (nat_of_ascii c) 91 = false
  /\ Nat.eqb (nat_of_ascii c) 93 = false
  /\ Nat.eqb (nat_of_ascii c) 123 = false
  /\ Nat.eqb (nat_of_ascii c) 125 = false
  /\ Ascii.eqb "n" c = false
  /\ Ascii.eqb "t" c = false
  /\ Ascii.eqb "f" c = false.
Proof.
  destruct c as [[|] [|] [|] [|] [|] [|] [|] [|]];
    intros H; try discriminate H; repeat split.
Qed.

(** Evaluates the tests the decoder makes on a known character. *)
Ltac eval_test t :=
  let v := eval vm_compute in t in progress change t with v.

Ltac char_tests :=
  repeat match goal with
    | |- context [ascii_of_nat ?n] => eval_test (ascii_of_nat n)
    | |- context [Nat.eqb (nat_of_ascii (Ascii ?a ?b ?c ?d ?e ?f ?g ?h)) ?n] =>
        eval_test (Nat.eqb (nat_of_ascii (Ascii a b c d e f g h)) n)
    | |- context [is_digit (Ascii ?a ?b ?c ?d ?e ?f ?g ?h)] =>
        eval_test (is_digit (Ascii a b c d e f g h))
    | |- context [is_ws (Ascii ?a ?b ?c ?d ?e ?f ?g ?h)] =>
        eval_test (is_ws (Ascii a b c d e f g h))
    end;
  cbv beta iota.

Lemma match_integer_digits (sign : string) (d : uint) (rest : string) :
  sign = "" \/ sign = "-" ->
  d = D0 Nil \/ match d with Nil | D0 _ => False | _ => True end ->
  value_end rest = true ->
  match_integer ((sign ++ NilEmpty.string_of_uint d) ++ rest)
  = Some (sign ++ NilEmpty.string_of_uint d, rest)
  /\ number_start ((sign ++ NilEmpty.string_of_uint d) ++ rest) = true.
Proof.
  intros Hsign Hd Hend.
  assert (Hdigits : forall sign',
            match
              match NilEmpty.string_of_uint d ++ rest with
              | EmptyString => None
              | String c r =>
                  if Nat.eqb (nat_of_ascii c) 48 then Some (sign' ++ "0", r)
                  else if is_digit c then
                    let (ds, rest) := take_digits r in
                    Some (sign' ++ String c ds, rest)
                  else None
              end
            with
            | Some found => found
            | None => (EmptyString, EmptyString)
            end = (sign' ++ NilEmpty.string_of_uint d, rest)
            /\ number_start (NilEmpty.string_of_uint d ++ rest) = true
            /\ (exists c r, NilEmpty.string_of_uint d ++ rest = String c r
                            /\ Nat.eqb (nat_of_ascii c) 45 = false
                            /\ is_digit c = true)).
  { intros sign'.
    destruct Hd as [-> | Hd];
      [cbn [NilEmpty.string_of_uint append]; char_tests; repeat split; eauto|].
    destruct d as [|d|d|d|d|d|d|d|d|d|d]; try destruct Hd;
      cbn [NilEmpty.string_of_uint append]; char_tests;
      rewrite (take_digits_uint d rest Hend); repeat split; eauto. }
  destruct Hsign as [-> | ->]; cbn [append]; unfold match_integer.
  - destruct (Hdigits "") as (Hint & Hstart & c & r & Htext & Hminus & Hdig).
    split; [|exact Hstart]. cbn [append] in Hint.
    rewrite Htext in *. rewrite Hminus.
    destruct (Nat.eqb (nat_of_ascii c) 48); [now injection Hint as <- <-|].
    rewrite Hdig in *. destruct (take_digits r). now injection Hint as <- <-.
  - destruct (Hdigits "-") as (Hint & Hstart & c & r & Htext & Hminus & Hdig).
    split; [|reflexivity]. char_tests.
    rewrite Htext in *.
    destruct (Nat.eqb (nat_of_ascii c) 48); [now injection Hint as <- <-|].
    rewrite Hdig in *. destruct (take_digits r). now injection Hint as <- <-.
Qed.

(** A number is what [scan_once] finds where the text starts like one. *)
Lemma scan_once_number (fuel : nat) (s : string) (found : pyval * string) :
  number_start s = true ->
  match_number s = Some found ->
  scan_once (S fuel) s = Some found /\ value_start s = true.
Proof.
  destruct s as [|c r]; [discriminate|]. intros Hstart Hnum.
  destruct (number_start_char c r Hstart)
    as (Hws & H34 & H91 & H93 & H123 & H125 & Hn & Ht & Hf).
  split.
  - cbn [scan_once]. rewrite H34, H123, H91.
    unfold scan_scalar. cbn [strip_prefix]. rewrite Hn, Ht, Hf, Hnum.
    reflexivity.
  - unfold value_start. rewrite Hws, H93, H125. reflexivity.
Qed.

(** Reading back an integer. *)
Lemma scan_once_int (fuel : nat) (z : Z) (rest : string) :
  value_end rest = true ->
  scan_once (S fuel) (str_of_Z z ++ rest) = Some (PInt z, rest)
  /\ value_start (str_of_Z z ++ rest) = true.
Proof.
  intros Hend.
  pose proof (int_of_text_str_of_Z z) as Hval.
  destruct (str_of_Z_shape z) as (sign & d & Htext & Hsign & Hd).
  destruct (match_integer_digits sign d rest Hsign Hd Hend) as [Hint Hstart].
  rewrite <- Htext in Hint, Hstart.
  apply scan_once_number; [exact Hstart|].
  unfold match_number. rewrite Hint.
  rewrite (match_frac_end rest Hend), (match_exp_end rest Hend), Hval.
  reflexivity.
Qed.

Lemma str_of_Z_length (z : Z) : (1 <= String.length (str_of_Z z))%nat.
Proof.
  destruct (str_of_Z_shape z) as (sign & d & -> & Hsign & Hd).
  rewrite length_append.
  destruct Hd as [-> | Hd]; [simpl; lia|].
  destruct d; try destruct Hd; simpl; lia.
Qed.

Lemma str_of_Z_start (z : Z) (rest : string) :
  number_start (str_of_Z z ++ rest) = true.
Proof.
  destruct (str_of_Z_shape z) as (sign & d & -> & Hsign & Hd).
  destruct Hsign as [-> | ->]; [|reflexivity].
  destruct Hd as [-> | Hd]; [reflexivity|].
  destruct d; try destruct Hd; reflexivity.
Qed.

(** *** White space *)

Lemma skip_ws_spaces (level : nat) (s : string) :
  skip_ws (str_mul "  " level ++ s) = skip_ws s.
Proof.
  induction level as [|level IH]; [reflexivity|].
  cbn [str_mul]. rewrite append_assoc. cbn [append skip_ws]. char_tests.
  exact IH.
Qed.

Lemma skip_ws_newline_indent (level : nat) (s : string) :
  skip_ws (newline_indent level ++ s) = skip_ws s.
Proof.
  unfold newline_indent, nl. rewrite append_assoc.
  cbn [append skip_ws]. char_tests. apply skip_ws_spaces.
Qed.

Lemma skip_ws_value (s : string) : value_start s = true -> skip_ws s = s.
Proof.
  destruct s as [|c r]; [discriminate|]. cbn [value_start skip_ws].
  destruct (is_ws c); [discriminate|reflexivity].
Qed.

Lemma value_end_newline_indent (level : nat) (s : string) :
  value_end (newline_indent level ++ s) = true.
Proof. reflexivity. Qed.

(** *** Scalars and strings *)

Lemma scan_once_str (fuel : nat) (s rest : string) :
  scan_once (S fuel) (encode_basestring_ascii s ++ rest) = Some (PStr s, rest).
Proof.
  pose proof (scanstring_escape s rest) as Hscan.
  unfold encode_basestring_ascii, dq in *.
  rewrite !append_assoc. cbn [append scan_once] in *.
  revert Hscan. char_tests. intros ->. reflexivity.
Qed.

(** What the decoder accepts does not start with white space, a closing
    bracket or a closing brace. *)
Lemma scan_once_start (fuel : nat) (s : string) (found : pyval * string) :
  scan_once fuel s = Some found -> value_start s = true.
Proof.
  destruct fuel as [|fuel]; [discriminate|].
  destruct s as [|c r]; [discriminate|]. intros H.
  destruct c as [[|] [|] [|] [|] [|] [|] [|] [|]]; try reflexivity;
    vm_compute in H; discriminate H.
Qed.

(** The text of a value that is read back starts like a value, whatever
    follows it. *)
Lemma json_encode_start (level : nat) (v : pyval) (rest : string) :
  reads_back v -> value_start (json_encode level v ++ rest) = true.
Proof.
  intros Hread.
  specialize (Hread level "" (size v) (le_n _) eq_refl).
  apply scan_once_start in Hread.
  destruct (json_encode level v) as [|c r]; [discriminate Hread|exact Hread].
Qed.

(** *** Lists *)

Lemma join_cons (sep a b : string) (l : list string) :
  join sep (a :: b :: l) = a ++ sep ++ join sep (b :: l).
Proof. reflexivity. Qed.

Lemma json_encode_list (level : nat) (x : pyval) (items : list pyval) :
  json_encode level (PList (x :: items))
  = "[" ++ newline_indent (S level)
        ++ join (item_separator (S level))
                (map (json_encode (S level)) (x :: items))
        ++ newline_indent level ++ "]".
Proof. reflexivity. Qed.

Lemma json_encode_dict (level : nat) (kv : string * pyval)
    (kvs : list (string * pyval)) :
  json_encode level (PDict (kv :: kvs))
  = "{" ++ newline_indent (S level)
        ++ join (item_separator (S level))
                (map (encode_pair (S level)) (kv :: kvs))
        ++ newline_indent level ++ "}".
Proof. reflexivity. Qed.

(** The items of a non-empty list, up to the closing bracket. *)
Lemma scan_items_join (level : nat) (items : list pyval) :
  items <> [] ->
  Forall reads_back items ->
  forall (tail rest : string) (fuel : nat),
    (fold_right (fun x n => S (size x + n)) O items <= fuel)%nat ->
    value_end tail = true ->
    skip_ws tail = String "]" rest ->
    scan_items fuel
      (join (item_separator level) (map (json_encode level) items) ++ tail)
    = Some (items, rest)
    /\ value_start
         (join (item_separator level) (map (json_encode level) items) ++ tail)
       = true.
Proof.
  induction items as [|x xs IH]; [congruence|].
  intros _ Hall tail rest fuel Hfuel Hend Htail.
  inversion Hall as [|? ? Hx Hxs]; subst.
  cbn [fold_right] in Hfuel.
  destruct fuel as [|fuel]; [lia|].
  destruct xs as [|y ys].
  - cbn [map join]. split; [|now apply json_encode_start].
    cbn [scan_items]. rewrite (Hx level tail fuel) by (assumption || lia).
    rewrite Htail. char_tests. reflexivity.
  - assert (Hne : y :: ys <> []) by discriminate.
    cbn [map]. rewrite join_cons, !append_assoc.
    split; [|now apply json_encode_start].
    destruct (IH Hne Hxs tail rest fuel) as [Hrest Hstart];
      [cbn [fold_right] in *; lia|assumption|assumption|].
    cbn [map] in Hrest, Hstart.
    cbn [scan_items]. unfold item_separator at 1. rewrite append_assoc.
    rewrite (Hx level _ fuel) by (reflexivity || lia).
    cbn [append skip_ws]. char_tests.
    rewrite skip_ws_newline_indent, (skip_ws_value _ Hstart), Hrest.
    reflexivity.
Qed.

(** Reading back a list whose items can be read back. *)
Lemma reads_back_list (items : list pyval) :
  Forall reads_back items ->
  reads_back (PList items).
Proof.
  intros Hall level rest fuel Hfuel Hend.
  destruct fuel as [|fuel]; [cbn [size] in Hfuel; lia|].
  destruct items as [|x xs].
  - cbn [json_encode append scan_once skip_ws]. char_tests. reflexivity.
  - rewrite json_encode_list, !append_assoc.
    cbn [size] in Hfuel.
    destruct (scan_items_join (S level) (x :: xs) ltac:(discriminate) Hall
                (newline_indent level ++ "]" ++ rest) rest fuel)
      as [Hitems Hstart];
      [lia|reflexivity|now rewrite skip_ws_newline_indent|].
    set (tail := newline_indent level ++ "]" ++ rest) in *. clearbody tail.
    cbn [append scan_once]. char_tests.
    rewrite skip_ws_newline_indent, (skip_ws_value _ Hstart).
    destruct (join _ _ ++ _) as [|c1 r1] eqn:Htext; [discriminate Hstart|].
    cbn [value_start] in Hstart.
    destruct (Nat.eqb (nat_of_ascii c1) 93);
      [rewrite !andb_false_r in Hstart; discriminate Hstart|].
    rewrite Hitems. reflexivity.
Qed.

(** *** Dicts *)

(** The pairs of a non-empty dict, from the opening quote of the first key
    up to the closing brace. *)
Lemma scan_pairs_join (level : nat) (kvs : list (string * pyval)) :
  kvs <> [] ->
  Forall (fun kv => reads_back (snd kv)) kvs ->
  forall (tail rest : string) (fuel : nat),
    (fold_right (fun kv n => let '(_, x) := kv in S (size x + n)) O kvs
     <= fuel)%nat ->
    value_end tail = true ->
    skip_ws tail = String "}" rest ->
    exists text,
      join (item_separator level) (map (encode_pair level) kvs) ++ tail
      = dq ++ text
      /\ scan_pairs fuel text = Some (kvs, rest).
Proof.
  induction kvs as [|[k x] kvs IH]; [congruence|].
  intros _ Hall tail rest fuel Hfuel Hend Htail.
  inversion Hall as [|? ? Hx Hkvs]; subst. cbn [snd] in Hx.
  cbn [fold_right] in Hfuel.
  destruct fuel as [|fuel]; [lia|].
  destruct kvs as [|kv2 kvs].
  - cbn [map join encode_pair]. unfold encode_basestring_ascii.
    rewrite !append_assoc. eexists. split; [reflexivity|].
    cbn [scan_pairs]. rewrite scanstring_escape.
    cbn [append skip_ws]. char_tests. cbn [skip_ws]. char_tests.
    rewrite (skip_ws_value _ (json_encode_start level x tail Hx)).
    rewrite (Hx level tail fuel) by (assumption || lia).
    rewrite Htail. char_tests. reflexivity.
  - assert (Hne : kv2 :: kvs <> []) by discriminate.
    destruct (IH Hne Hkvs tail rest fuel) as (text & Htext & Hrest);
      [cbn [fold_right] in *; lia|assumption|assumption|].
    cbn [map] in Htext |- *. rewrite join_cons.
    cbn [encode_pair]. unfold encode_basestring_ascii.
    rewrite !append_assoc. eexists. split; [reflexivity|].
    cbn [scan_pairs]. rewrite scanstring_escape.
    cbn [append skip_ws]. char_tests. cbn [skip_ws]. char_tests.
    rewrite (skip_ws_value _ (json_encode_start level x _ Hx)).
    unfold item_separator at 1. rewrite append_assoc.
    rewrite (Hx level _ fuel) by (reflexivity || lia).
    cbn [append skip_ws]. char_tests.
    rewrite skip_ws_newline_indent, Htext.
    unfold dq. cbn [append skip_ws]. char_tests.
    rewrite Hrest. reflexivity.
Qed.

Lemma distinct_middle (before after : list string) (key : string) :
  distinct (before ++ key :: after) = true ->
  existsb (fun k => String.eqb k key) before = false.
Proof.
  induction before as [|a before IH]; [reflexivity|].
  cbn [app distinct existsb]. intros H.
  apply andb_true_iff in H as [Ha Hrest].
  rewrite (IH Hrest), orb_false_r.
  rewrite existsb_app in Ha. cbn [existsb] in Ha.
  destruct (String.eqb a key); [|reflexivity].
  rewrite orb_true_r in Ha. discriminate Ha.
Qed.

Lemma dict_set_fresh (kvs : list (string * pyval)) (key : string) (v : pyval) :
  existsb (fun k => String.eqb k key) (map fst kvs) = false ->
  dict_set kvs key v = (kvs ++ [(key, v)])%list.
Proof.
  induction kvs as [|[k x] kvs IH]; [reflexivity|].
  cbn [map fst existsb dict_set app]. intros H.
  apply orb_false_iff in H as [Hk Hrest].
  rewrite Hk, (IH Hrest). reflexivity.
Qed.

Lemma dict_of_pairs_from (pairs acc : list (string * pyval)) :
  distinct (map fst (acc ++ pairs)) = true ->
  fold_left (fun d kv => dict_set d (fst kv) (snd kv)) pairs acc
  = (acc ++ pairs)%list.
Proof.
  revert acc. induction pairs as [|[k x] pairs IH]; intros acc Hdistinct.
  - now rewrite List.app_nil_r.
  - cbn [fold_left fst snd].
    rewrite dict_set_fresh.
    + rewrite IH; rewrite <- List.app_assoc; [reflexivity|exact Hdistinct].
    + rewrite List.map_app in Hdistinct. cbn [map fst] in Hdistinct.
      exact (distinct_middle _ _ _ Hdistinct).
Qed.

(** [dict(pairs)] keeps pairs with distinct keys as they are. *)
Lemma dict_of_pairs_distinct (pairs : list (string * pyval)) :
  distinct (map fst pairs) = true -> dict_of_pairs pairs = pairs.
Proof. intros H. unfold dict_of_pairs. now rewrite dict_of_pairs_from. Qed.

(** Reading back a dict whose values can be read back. *)
Lemma reads_back_dict (kvs : list (string * pyval)) :
  Forall (fun kv => reads_back (snd kv)) kvs ->
  distinct (map fst kvs) = true ->
  reads_back (PDict kvs).
Proof.
  intros Hall Hdistinct level rest fuel Hfuel Hend.
  destruct fuel as [|fuel]; [cbn [size] in Hfuel; lia|].
  destruct kvs as [|kv kvs].
  - cbn [json_encode append scan_once skip_ws]. char_tests. reflexivity.
  - rewrite json_encode_dict, !append_assoc.
    cbn [size] in Hfuel.
    destruct (scan_pairs_join (S level) (kv :: kvs) ltac:(discriminate) Hall
                (newline_indent level ++ "}" ++ rest) rest fuel)
      as (text & Htext & Hpairs);
      [lia|reflexivity|now rewrite skip_ws_newline_indent|].
    set (tail := newline_indent level ++ "}" ++ rest) in *. clearbody tail.
    cbn [append scan_once]. char_tests.
    rewrite skip_ws_newline_indent, Htext.
    unfold dq. cbn [append skip_ws]. char_tests.
    rewrite Hpairs, (dict_of_pairs_distinct _ Hdistinct). reflexivity.
Qed.

(** *** Every value *)

Lemma floats_read_back_list (items : list pyval) :
  floats_read_back (PList items) <-> Forall floats_read_back items.
Proof.
  cbn [floats_read_back]. induction items as [|x xs IH].
  - split; [constructor|exact (fun _ => I)].
  - rewrite IH. split.
    + intros [Hx Hxs]. now constructor.
    + intros H. inversion H; subst. now split.
Qed.

Lemma floats_read_back_dict (kvs : list (string * pyval)) :
  floats_read_back (PDict kvs)
  <-> Forall (fun kv => floats_read_back (snd kv)) kvs.
Proof.
  cbn [floats_read_back]. induction kvs as [|[k x] kvs IH].
  - split; [constructor|exact (fun _ => I)].
  - rewrite IH. split.
    + intros [Hx Hxs]. now constructor.
    + intros H. inversion H; subst. now split.
Qed.

(** A value without floats has nothing to assume about floats. *)
Lemma float_free_reads_back (v : pyval) :
  float_free v = true -> floats_read_back v.
Proof.
  induction v as [|b|z|f|s|items IH|kvs IH] using pyval_nested_ind;
    intros Hfree; try exact I.
  - discriminate Hfree.
  - apply floats_read_back_list. cbn [float_free] in Hfree.
    rewrite Forall_forall in *. rewrite forallb_forall in Hfree. auto.
  - apply floats_read_back_dict. cbn [float_free] in Hfree.
    rewrite Forall_forall in *. rewrite forallb_forall in Hfree.
    intros [k x] Hin. exact (IH (k, x) Hin (Hfree (k, x) Hin)).
Qed.

Lemma reads_back_all (v : pyval) :
  keys_distinct v = true -> floats_read_back v -> reads_back v.
Proof.
  induction v as [|b|z|f|s|items IH|kvs IH] using pyval_nested_ind;
    intros Hkeys Hfloats.
  - intros level rest [|fuel] Hfuel Hend; [cbn in Hfuel; lia|]. reflexivity.
  - intros level rest [|fuel] Hfuel Hend; [cbn in Hfuel; lia|].
    destruct b; reflexivity.
  - intros level rest [|fuel] Hfuel Hend; [cbn in Hfuel; lia|].
    apply scan_once_int. exact Hend.
  - intros level rest [|fuel] Hfuel Hend; [cbn in Hfuel; lia|].
    apply Hfloats. exact Hend.
  - intros level rest [|fuel] Hfuel Hend; [cbn in Hfuel; lia|].
    apply scan_once_str.
  - cbn [keys_distinct] in Hkeys. apply floats_read_back_list in Hfloats.
    apply reads_back_list.
    rewrite Forall_forall in *. intros x Hin.
    rewrite forallb_forall in Hkeys. auto.
  - cbn [keys_distinct] in Hkeys. apply floats_read_back_dict in Hfloats.
    apply andb_true_iff in Hkeys as [Hdistinct Hkeys].
    apply reads_back_dict; [|exact Hdistinct].
    rewrite Forall_forall in *. intros [k x] Hin.
    rewrite forallb_forall in Hkeys.
    apply (IH (k, x) Hin); [exact (Hkeys (k, x) Hin)|exact (Hfloats (k, x) Hin)].
Qed.

(** *** Enough fuel *)

Lemma newline_indent_length (level : nat) :
  (1 <= String.length (newline_indent level))%nat.
Proof. unfold newline_indent, nl. cbn [append String.length]. lia. Qed.

Lemma item_separator_length (level : nat) :
  (1 <= String.length (item_separator level))%nat.
Proof. unfold item_separator. cbn [append String.length]. lia. Qed.

(** The joined text of a non-empty sequence of parts is at least as long
    as the calls the decoder makes for them, less one. *)
Lemma join_length {A : Type} (cost : A -> nat) (text : A -> string)
    (sep : string) (xs : list A) :
  xs <> [] ->
  (1 <= String.length sep)%nat ->
  Forall (fun x => (cost x <= String.length (text x))%nat) xs ->
  (fold_right (fun x n => S (cost x + n)) O xs
   <= S (String.length (join sep (map text xs))))%nat.
Proof.
  intros Hne Hsep Hall. induction xs as [|x xs IH]; [congruence|].
  inversion Hall as [|? ? Hx Hxs]; subst.
  destruct xs as [|y ys].
  - cbn [fold_right map join]. lia.
  - cbn [map]. rewrite join_cons, !length_append.
    specialize (IH ltac:(discriminate) Hxs).
    cbn [fold_right map] in *. lia.
Qed.

(** The text of a float that is read back is not empty. *)
Lemma floatstr_length (f : float) :
  float_reads_back f -> (1 <= String.length (floatstr f))%nat.
Proof.
  intros Hread. specialize (Hread "" O eq_refl).
  destruct (floatstr f); [discriminate Hread|cbn; lia].
Qed.

(** The decoder never makes more nested calls than the text has
    characters. *)
Lemma size_le_length (v : pyval) :
  floats_read_back v ->
  forall level, (size v <= String.length (json_encode level v))%nat.
Proof.
  induction v as [|b|z|f|s|items IH|kvs IH] using pyval_nested_ind;
    intros Hfloats level.
  - cbn. lia.
  - destruct b; cbn; lia.
  - cbn [size json_encode]. apply str_of_Z_length.
  - cbn [size json_encode]. now apply floatstr_length.
  - cbn [size json_encode]. unfold encode_basestring_ascii, dq.
    cbn [append String.length]. lia.
  - apply floats_read_back_list in Hfloats.
    destruct items as [|x xs]; [cbn; lia|].
    rewrite json_encode_list, !length_append. cbn [size].
    pose proof (newline_indent_length (S level)).
    pose proof (newline_indent_length level).
    pose proof (join_length size (json_encode (S level))
                  (item_separator (S level)) (x :: xs) ltac:(discriminate)
                  (item_separator_length (S level))) as Hjoin.
    cbn [String.length]. cut (Forall
      (fun x0 => (size x0 <= String.length (json_encode (S level) x0))%nat)
      (x :: xs)); [intros Hall; specialize (Hjoin Hall); lia|].
    rewrite Forall_forall in *. auto.
  - apply floats_read_back_dict in Hfloats.
    destruct kvs as [|kv kvs]; [cbn; lia|].
    rewrite json_encode_dict, !length_append. cbn [size].
    pose proof (newline_indent_length (S level)).
    pose proof (newline_indent_length level).
    pose proof (join_length (fun kv => size (snd kv)) (encode_pair (S level))
                  (item_separator (S level)) (kv :: kvs) ltac:(discriminate)
                  (item_separator_length (S level))) as Hjoin.
    cbn [String.length].
    replace (fold_right (fun kv0 n => let '(_, x) := kv0 in S (size x + n)) O
               (kv :: kvs))
      with (fold_right (fun kv0 n => S (size (snd kv0) + n)) O (kv :: kvs)).
    + cut (Forall
        (fun kv0 => (size (snd kv0)
                     <= String.length (encode_pair (S level) kv0))%nat)
        (kv :: kvs)); [intros Hall; specialize (Hjoin Hall); lia|].
      rewrite Forall_forall in *.
      intros [k x] Hin. cbn [snd encode_pair]. rewrite !length_append.
      specialize (IH (k, x) Hin (Hfloats (k, x) Hin) (S level)).
      cbn [snd] in IH. lia.
    + generalize (kv :: kvs). intros l.
      induction l as [|[k x] l IHl]; [reflexivity|].
      cbn [fold_right snd]. now rewrite IHl.
Qed.

Lemma append_empty (s : string) : s ++ "" = s.
Proof. induction s as [|c s IH]; [reflexivity|]. cbn. now rewrite IH. Qed.

(** The three special floats are read back without any assumption. *)
Lemma special_floats_read_back :
  float_reads_back nan /\ float_reads_back infinity
  /\ float_reads_back neg_infinity.
Proof. repeat split; intros rest fuel Hend; reflexivity. Qed.


End RoundTrip.

(** * Further properties of the client *)

Section MoreClientProperties.

Variable E : env.

Lemma get_job_status_world (self : AwapClient.t) (job_id : pyval) (w : world) :
  snd (get_job_status E self job_id w)
  = after_exchange E (poll_request self job_id) w.
Proof.
  unfold get_job_status, bind.
  pose proof (_request_world E self "GET" ("/api/v1/jobs/" ++ py_str job_id)
                NoBody w) as Hw.
  destruct (_request _ _ _ _ _ _) as [[r|e] w1]; simpl in Hw; subst w1;
    [|reflexivity].
  unfold Response_json. destruct (json_body r); reflexivity.
Qed.

(** X1. Whatever goes wrong in [_request] surfaces as an [AwapAPIError]: a
    transport failure with the message [Request failed: ...], an error
    status with [API request failed: ...].  In both cases the error carries
    no status code, an error response being falsy. *)
Theorem _request_raises_only_api_error (self : AwapClient.t)
    (method endpoint : string) (kwargs : payload) (w w' : world) (e : exn) :
  _request E self method endpoint kwargs w = (Raise e, w') ->
  (exists text,
      outcome (remote E (List.length (sent w))
                 (request_of self method endpoint kwargs))
      = RequestException text
      /\ e = AwapAPIError ("Request failed: " ++ text) None)
  \/ (exists r text,
        outcome (remote E (List.length (sent w))
                   (request_of self method endpoint kwargs))
        = Responded r
        /\ raise_for_status r = Some text
        /\ e = AwapAPIError ("API request failed: " ++ text) None).
Proof.
  unfold _request, session_request.
  fold (request_of self method endpoint kwargs).
  destruct (outcome _) as [text|r] eqn:Hout.
  - intros [= <- _]. left. eauto.
  - unfold Response_bool.
    destruct (raise_for_status r) as [text|] eqn:Hstatus; [|discriminate].
    intros [= <- _]. right. eauto.
Qed.

(** X2. Each single-step operation makes exactly one exchange with the
    service, whether it succeeds or raises: [upload_tma] once the file is
    found, [submit_for_marking], [get_job_status] and [get_results]. *)
Theorem one_exchange_per_operation (self : AwapClient.t) (w : world) :
  (forall file_path f student_id rubric,
      path_lookup E file_path = Some (RegularFile f) ->
      snd (upload_tma E self file_path student_id rubric w)
      = after_exchange E (upload_request self file_path f student_id rubric) w)
  /\ (forall tma_id rubric auto_feedback,
        snd (submit_for_marking E self tma_id rubric auto_feedback w)
        = after_exchange E (mark_request self tma_id rubric auto_feedback) w)
  /\ (forall job_id,
        snd (get_job_status E self job_id w)
        = after_exchange E (poll_request self job_id) w)
  /\ (forall tma_id,
        snd (get_results E self tma_id w)
        = after_exchange E (results_request self tma_id) w).
Proof.
  repeat split.
  - intros file_path f student_id rubric Hfile.
    unfold upload_tma. rewrite Hfile. unfold bind.
    pose proof (_request_world E self "POST" "/api/v1/tma/upload"
                  (Multipart (basename file_path) f "application/pdf"
                     [("student_id", student_id); ("rubric", rubric)]) w) as Hw.
    destruct (_request _ _ _ _ _ _) as [[r|e] w1]; simpl in Hw; subst w1;
      [|reflexivity].
    unfold Response_json, ret, raise, lift.
    destruct (json_body r); [|reflexivity].
    destruct (py_get _ _ _); [|reflexivity].
    destruct (negb _); reflexivity.
  - intros tma_id rubric auto_feedback.
    unfold submit_for_marking, bind.
    pose proof (_request_world E self "POST"
                  ("/api/v1/tma/" ++ py_str tma_id ++ "/mark")
                  (JsonBody (PDict [("rubric", PStr rubric);
                                    ("auto_feedback", PBool auto_feedback)])) w)
      as Hw.
    destruct (_request _ _ _ _ _ _) as [[r|e] w1]; simpl in Hw; subst w1;
      [|reflexivity].
    unfold Response_json, ret, raise, lift.
    destruct (json_body r); [|reflexivity].
    destruct (py_get _ _ _); [|reflexivity].
    destruct (negb _); reflexivity.
  - intros job_id. apply get_job_status_world.
  - intros tma_id. unfold get_results, bind.
    pose proof (_request_world E self "GET"
                  ("/api/v1/tma/" ++ py_str tma_id ++ "/results") NoBody w)
      as Hw.
    destruct (_request _ _ _ _ _ _) as [[r|e] w1]; simpl in Hw; subst w1;
      [|reflexivity].
    unfold Response_json, ret, raise, lift.
    destruct (json_body r); reflexivity.
Qed.

(** What [upload_tma] makes of a 2xx response carrying a JSON object. *)
Lemma upload_tma_object (self : AwapClient.t)
    (file_path f student_id rubric : string) (w : world) (r : Response)
    (kvs : list (string * pyval)) :
  path_lookup E file_path = Some (RegularFile f) ->
  outcome (remote E (List.length (sent w))
             (upload_request self file_path f student_id rubric))
  = Responded r ->
  200 <= status_code r < 300 ->
  json_body r = Some (PDict kvs) ->
  upload_tma E self file_path student_id rubric w
  = (if py_truthy (get_default "tma_id" kvs PNone)
     then Ok (get_default "tma_id" kvs PNone)
     else Raise (AwapAPIError "No TMA ID returned from upload" None),
     after_exchange E (upload_request self file_path f student_id rubric) w).
Proof.
  intros Hfile Hout Hcode Hbody.
  unfold upload_tma. rewrite Hfile. unfold bind at 1.
  rewrite (_request_success E _ _ _ _ _ r Hout (raise_for_status_2xx r Hcode)).
  unfold bind, Response_json, lift, ret, raise, py_get. rewrite Hbody.
  destruct (py_truthy _); reflexivity.
Qed.

Lemma submit_for_marking_object (self : AwapClient.t) (tma_id : pyval)
    (rubric : string) (auto_feedback : bool) (w : world) (r : Response)
    (kvs : list (string * pyval)) :
  outcome (remote E (List.length (sent w))
             (mark_request self tma_id rubric auto_feedback))
  = Responded r ->
  200 <= status_code r < 300 ->
  json_body r = Some (PDict kvs) ->
  submit_for_marking E self tma_id rubric auto_feedback w
  = (if py_truthy (get_default "job_id" kvs PNone)
     then Ok (get_default "job_id" kvs PNone)
     else Raise (AwapAPIError "No job ID returned" None),
     after_exchange E (mark_request self tma_id rubric auto_feedback) w).
Proof.
  intros Hout Hcode Hbody.
  unfold submit_for_marking. unfold bind at 1.
  rewrite (_request_success E _ _ _ _ _ r Hout (raise_for_status_2xx r Hcode)).
  unfold bind, Response_json, lift, ret, raise, py_get. rewrite Hbody.
  destruct (py_truthy _); reflexivity.
Qed.

(** X3. On a 2xx response carrying a JSON object, [upload_tma] returns the
    value of [tma_id] as it is when that value is truthy, and raises
    [AwapAPIError] when it is missing or falsy (null, false, zero, an empty
    string, list or object); [submit_for_marking] does the same with
    [job_id]. *)
Theorem handle_returned_when_truthy (self : AwapClient.t) (w : world)
    (r : Response) (kvs : list (string * pyval)) :
  200 <= status_code r < 300 ->
  json_body r = Some (PDict kvs) ->
  (forall file_path f student_id rubric,
      path_lookup E file_path = Some (RegularFile f) ->
      outcome (remote E (List.length (sent w))
                 (upload_request self file_path f student_id rubric))
      = Responded r ->
      fst (upload_tma E self file_path student_id rubric w)
      = if py_truthy (get_default "tma_id" kvs PNone)
        then Ok (get_default "tma_id" kvs PNone)
        else Raise (AwapAPIError "No TMA ID returned from upload" None))
  /\ (forall tma_id rubric auto_feedback,
        outcome (remote E (List.length (sent w))
                   (mark_request self tma_id rubric auto_feedback))
        = Responded r ->
        fst (submit_for_marking E self tma_id rubric auto_feedback w)
        = if py_truthy (get_default "job_id" kvs PNone)
          then Ok (get_default "job_id" kvs PNone)
          else Raise (AwapAPIError "No job ID returned" None)).
Proof.
  intros Hcode Hbody. split.
  - intros file_path f student_id rubric Hfile Hout.
    now rewrite (upload_tma_object _ _ _ _ _ _ _ _ Hfile Hout Hcode Hbody).
  - intros tma_id rubric auto_feedback Hout.
    now rewrite (submit_for_marking_object _ _ _ _ _ _ _ Hout Hcode Hbody).
Qed.

(** X4. A 2xx response whose body is not JSON, or is JSON but not an object,
    makes [upload_tma] raise an exception that is not an [AwapError]
    ([JSONDecodeError], [AttributeError]): [response.json()] and
    [result.get] run outside the [try] of [_request]. *)
Theorem upload_tma_unexpected_body (self : AwapClient.t)
    (file_path f student_id rubric : string) (w : world) (r : Response) :
  path_lookup E file_path = Some (RegularFile f) ->
  outcome (remote E (List.length (sent w))
             (upload_request self file_path f student_id rubric))
  = Responded r ->
  200 <= status_code r < 300 ->
  match json_body r with
  | Some (PDict _) => False
  | _ => True
  end ->
  exists e,
    fst (upload_tma E self file_path student_id rubric w) = Raise e
    /\ is_AwapError e = false
    /\ e = match json_body r with
           | None => JSONDecodeError
           | Some _ => AttributeError "get"
           end.
Proof.
  intros Hfile Hout Hcode Hbody.
  unfold upload_tma. rewrite Hfile. unfold bind at 1.
  rewrite (_request_success E _ _ _ _ _ r Hout (raise_for_status_2xx r Hcode)).
  unfold bind, Response_json, lift, ret, raise.
  destruct (json_body r) as [[| | | | | |]|]; try destruct Hbody;
    eexists; repeat split.
Qed.

(** *** The polling loop *)

Lemma _request_raises_only_api_error_aux (self : AwapClient.t)
    (method endpoint : string) (kwargs : payload) (w w' : world) (e : exn) :
  _request E self method endpoint kwargs w = (Raise e, w') ->
  exists message, e = AwapAPIError message None.
Proof.
  unfold _request, session_request.
  destruct (outcome _) as [text|r].
  - intros [= <- _]. eauto.
  - unfold Response_bool.
    destruct (raise_for_status r) as [text|]; [|discriminate].
    intros [= <- _]. eauto.
Qed.

(** The three ways a turn of the loop can go: the deadline check fires and
    nothing is polled; the poll is made and the turn ends the loop; or the
    poll is made, the whole interval is slept and the loop goes on. *)
Lemma wait_turn_cases (self : AwapClient.t) (job_id : pyval)
    (poll_interval timeout start_time : Z) (w : world) :
  let polled := after_exchange E (poll_request self job_id) w in
  (1000 * timeout < now w - start_time
   /\ wait_turn E self job_id poll_interval timeout start_time w
      = (Raise (AwapTimeoutError
                  ("Job did not complete within " ++ str_of_Z timeout
                   ++ " seconds")), w))
  \/ (now w - start_time <= 1000 * timeout
      /\ exists r,
          wait_turn E self job_id poll_interval timeout start_time w
          = (r, polled)
          /\ r <> Ok None
          /\ is_timeout r = false)
  \/ (now w - start_time <= 1000 * timeout
      /\ 0 <= poll_interval
      /\ wait_turn E self job_id poll_interval timeout start_time w
         = (Ok None, mkWorld (now polled + 1000 * poll_interval) (sent polled))).
Proof.
  intros polled.
  assert (Hstatus : forall e w1,
             get_job_status E self job_id w = (Raise e, w1) ->
             is_timeout (@Raise (option pyval) e) = false).
  { unfold get_job_status, bind. intros e w1.
    destruct (_request E self "GET" ("/api/v1/jobs/" ++ py_str job_id) NoBody w)
      as [[r|e0] w2] eqn:Hreq.
    - unfold Response_json. destruct (json_body r); [discriminate|].
      intros [= <- _]. reflexivity.
    - intros [= <- _].
      destruct (_request_raises_only_api_error_aux self "GET"
                  ("/api/v1/jobs/" ++ py_str job_id) NoBody w w2 e0 Hreq)
        as [msg ->].
      reflexivity. }
  unfold wait_turn, bind, time_time.
  destruct (now w - start_time >? 1000 * timeout) eqn:Hlate.
  - left. rewrite Z.gtb_ltb in Hlate. apply Z.ltb_lt in Hlate.
    split; [exact Hlate|reflexivity].
  - rewrite Z.gtb_ltb in Hlate. apply Z.ltb_ge in Hlate.
    pose proof (get_job_status_world self job_id w) as Hw. fold polled in Hw.
    destruct (get_job_status E self job_id w) as [[status_data|e] w1] eqn:Hget;
      simpl in Hw; subst w1.
    + unfold lift.
      destruct (py_get status_data "status" PNone) as [status|e] eqn:Hst.
      * destruct (py_eq_str status "completed").
        -- right. left. split; [exact Hlate|]. eexists.
           split; [reflexivity|]. split; [discriminate|reflexivity].
        -- destruct (py_eq_str status "failed").
           ++ right. left. split; [exact Hlate|].
              destruct (py_get status_data "error" (PStr "Unknown error"))
                as [error|e] eqn:Herr.
              ** eexists. split; [reflexivity|]. split; [discriminate|].
                 reflexivity.
              ** eexists. split; [reflexivity|]. split; [discriminate|].
                 destruct status_data; try discriminate Hst;
                   discriminate Herr.
           ++ unfold time_sleep, ret.
              destruct (poll_interval <? 0) eqn:Hneg.
              ** right. left. split; [exact Hlate|]. eexists.
                 split; [reflexivity|]. split; [discriminate|reflexivity].
              ** right. right. apply Z.ltb_ge in Hneg. auto.
      * right. left. split; [exact Hlate|]. eexists.
        split; [reflexivity|]. split; [discriminate|].
        destruct status_data; try discriminate Hst; injection Hst as <-;
          reflexivity.
    + right. left. split; [exact Hlate|]. eexists.
      split; [reflexivity|]. split; [discriminate|].
      exact (Hstatus e _ eq_refl).
Qed.

(** X5. A negative [timeout] makes [wait_for_completion] raise
    [AwapTimeoutError] at once: no poll is made and no time passes. *)
Theorem wait_for_completion_negative_timeout (fuel : nat)
    (self : AwapClient.t) (job_id : pyval) (poll_interval timeout : Z)
    (w : world) :
  timeout < 0 ->
  wait_for_completion E (S fuel) self job_id poll_interval (Some timeout) w
  = Some (Raise (AwapTimeoutError
                   ("Job did not complete within " ++ str_of_Z timeout
                    ++ " seconds")), w).
Proof.
  intros Hneg. unfold wait_for_completion, or_timeout.
  destruct (timeout =? 0) eqn:Hzero; [apply Z.eqb_eq in Hzero; lia|].
  cbn [wait_loop]. rewrite wait_turn_deadline by lia. reflexivity.
Qed.

Lemma wait_loop_terminates (self : AwapClient.t) (job_id : pyval)
    (poll_interval timeout start_time : Z) :
  0 < poll_interval ->
  forall (fuel : nat) (w : world),
    1000 * timeout - (now w - start_time) < 1000 * poll_interval * Z.of_nat fuel ->
    wait_loop E (S fuel) self job_id poll_interval timeout start_time w <> None.
Proof.
  intros Hpos. induction fuel as [|fuel IH]; intros w Hfuel.
  - cbn [wait_loop]. rewrite wait_turn_deadline by lia. discriminate.
  - pose proof (wait_turn_cases self job_id poll_interval timeout start_time w)
      as Hcases.
    cbv zeta in Hcases.
    remember (S fuel) as n. cbn [wait_loop]. subst n.
    destruct Hcases as [[_ ->]|[(_ & r & -> & Hr & _)|(_ & _ & ->)]].
    + discriminate.
    + destruct r as [[status|]|e]; [discriminate|congruence|discriminate].
    + apply IH. cbn [now after_exchange]. lia.
Qed.


Lemma wait_loop_last_poll (self : AwapClient.t) (job_id : pyval)
    (poll_interval timeout start_time : Z) :
  forall (fuel : nat) (w w' : world) (status : pyval),
    wait_loop E fuel self job_id poll_interval timeout start_time w
    = Some (Ok status, w') ->
    exists last,
      now last - start_time <= 1000 * timeout
      /\ w' = after_exchange E (poll_request self job_id) last.
Proof.
  induction fuel as [|fuel IH]; intros w w' status Hrun; [discriminate|].
  pose proof (wait_turn_cases self job_id poll_interval timeout start_time w)
    as Hcases.
  cbv zeta in Hcases. cbn [wait_loop] in Hrun.
  destruct Hcases as [[_ Hturn]|[(Hin & r & Hturn & Hr & _)|(_ & _ & Hturn)]];
    rewrite Hturn in Hrun.
  - discriminate.
  - destruct r as [[s|]|e]; [|congruence|discriminate].
    injection Hrun as _ <-. eauto.
  - eapply IH. exact Hrun.
Qed.

(** X7. When [wait_for_completion] returns, the poll that reported
    completion was started no later than the deadline: the world it returns
    is the one right after an exchange begun at most [timeout] seconds after
    the call. *)
Theorem wait_for_completion_returns_by_deadline (fuel : nat)
    (self : AwapClient.t) (job_id : pyval) (poll_interval : Z)
    (timeout : option Z) (w w' : world) (status : pyval) :
  wait_for_completion E fuel self job_id poll_interval timeout w
  = Some (Ok status, w') ->
  exists last,
    now last - now w <= 1000 * or_timeout timeout (AwapClient.timeout self)
    /\ w' = after_exchange E (poll_request self job_id) last.
Proof. unfold wait_for_completion. apply wait_loop_last_poll. Qed.

Lemma wait_loop_poll_count (self : AwapClient.t) (job_id : pyval)
    (poll_interval timeout start_time : Z) :
  0 < poll_interval ->
  forall (fuel : nat) (w w' : world) (r : result pyval),
    wait_loop E fuel self job_id poll_interval timeout start_time w
    = Some (r, w') ->
    requests_issued w w' = 0
    \/ (0 < requests_issued w w'
        /\ 1000 * poll_interval * (requests_issued w w' - 1)
           <= 1000 * timeout - (now w - start_time)).
Proof.
  intros Hpos. unfold requests_issued.
  induction fuel as [|fuel IH]; intros w w' r Hrun; [discriminate|].
  pose proof (wait_turn_cases self job_id poll_interval timeout start_time w)
    as Hcases.
  cbv zeta in Hcases. cbn [wait_loop] in Hrun.
  destruct Hcases as [[_ Hturn]|[(Hin & r0 & Hturn & Hr & _)|(Hin & _ & Hturn)]];
    rewrite Hturn in Hrun.
  - injection Hrun as _ <-. left. lia.
  - assert (Hw : w' = after_exchange E (poll_request self job_id) w).
    { destruct r0 as [[s|]|e]; [|congruence|]; now injection Hrun as _ <-. }
    subst w'. right. cbn [sent after_exchange]. rewrite length_app.
    cbn [List.length]. lia.
  - apply IH in Hrun. cbn [sent now after_exchange] in Hrun.
    rewrite length_app in *. cbn [List.length] in *.
    pose proof (N2Z.is_nonneg
                  (latency (remote E (List.length (sent w))
                              (poll_request self job_id)))) as Hlat.
    right. destruct Hrun as [Hnone|[Hsome Hbound]]; split; try lia.
Qed.

(** X8. With a positive poll interval and a non-negative timeout,
    [wait_for_completion] issues at most [timeout / poll_interval + 1] polls
    before it returns or raises. *)
Theorem wait_for_completion_poll_bound (fuel : nat) (self : AwapClient.t)
    (job_id : pyval) (poll_interval : Z) (timeout : option Z) (w w' : world)
    (r : result pyval) :
  0 < poll_interval ->
  0 <= or_timeout timeout (AwapClient.timeout self) ->
  wait_for_completion E fuel self job_id poll_interval timeout w = Some (r, w') ->
  requests_issued w w'
  <= or_timeout timeout (AwapClient.timeout self) / poll_interval + 1.
Proof.
  intros Hpos Htimeout Hrun. unfold wait_for_completion in Hrun.
  apply (wait_loop_poll_count _ _ _ _ _ Hpos) in Hrun.
  set (t := or_timeout timeout (AwapClient.timeout self)) in *.
  assert (Hdiv : 0 <= t / poll_interval) by (apply Z.div_pos; lia).
  destruct Hrun as [-> | [Hsome Hbound]]; [lia|].
  replace (now w - now w) with 0 in Hbound by lia.
  assert (Hle : requests_issued w w' - 1 <= t / poll_interval).
  { apply Z.div_le_lower_bound; [exact Hpos|]. nia. }
  lia.
Qed.

(** X16. A failed job is always reported with the text [Job failed: ]
    followed by [str()] of the [error] entry of the poll response: the text
    [Unknown error] when there is no such entry, [None] when it is null. *)
Theorem wait_loop_failed_job_any_error (fuel : nat) (self : AwapClient.t)
    (job_id : pyval) (poll_interval timeout start_time : Z) (w : world)
    (r : Response) (kvs : list (string * pyval)) :
  now w - start_time <= 1000 * timeout ->
  answers E w (poll_request self job_id) r ->
  json_body r = Some (PDict kvs) ->
  dict_lookup "status" kvs = Some (PStr "failed") ->
  wait_loop E (S fuel) self job_id poll_interval timeout start_time w
  = Some (Raise (AwapAPIError
                   ("Job failed: "
                    ++ py_str (get_default "error" kvs (PStr "Unknown error")))
                   None),
          after_exchange E (poll_request self job_id) w).
Proof.
  intros Hdeadline [Hout Hcode] Hbody Hstatus.
  cbn [wait_loop]. unfold wait_turn, bind, time_time.
  rewrite gtb_false by exact Hdeadline.
  rewrite (get_job_status_success E _ _ _ r _ Hout
             (raise_for_status_2xx r Hcode) Hbody).
  assert (Hs : get_default "status" kvs PNone = PStr "failed")
    by (unfold get_default; now rewrite Hstatus).
  unfold lift, py_get. rewrite Hs. reflexivity.
Qed.

Lemma wait_loop_timeout_time (self : AwapClient.t) (job_id : pyval)
    (poll_interval timeout start_time : Z) :
  forall (fuel : nat) (w w' : world) (message : string),
    wait_loop E fuel self job_id poll_interval timeout start_time w
    = Some (Raise (AwapTimeoutError message), w') ->
    1000 * timeout < now w' - start_time
    /\ (w' = w
        \/ exists last,
            now last - start_time <= 1000 * timeout
            /\ sent w' = (sent last ++ [poll_request self job_id])%list
            /\ now w'
               = now last
                 + Z.of_N (latency (remote E (List.length (sent last))
                                      (poll_request self job_id)))
                 + 1000 * poll_interval).
Proof.
  induction fuel as [|fuel IH]; intros w w' message Hrun; [discriminate|].
  pose proof (wait_turn_cases self job_id poll_interval timeout start_time w)
    as Hcases.
  cbv zeta in Hcases. cbn [wait_loop] in Hrun.
  destruct Hcases
    as [[Hlate Hturn]|[(Hin & r & Hturn & Hr & Hnt)|(Hin & _ & Hturn)]];
    rewrite Hturn in Hrun.
  - injection Hrun as _ <-. split; [exact Hlate|]. left. reflexivity.
  - destruct r as [[s|]|e]; [discriminate Hrun|congruence|].
    injection Hrun as -> _. discriminate Hnt.
  - apply IH in Hrun as [Hlate [-> | Hlast]].
    + split; [exact Hlate|]. right. exists w. repeat split; assumption.
    + split; [exact Hlate|]. right. exact Hlast.
Qed.

(** X17. When [wait_for_completion] raises [AwapTimeoutError], the deadline
    has really passed; and either nothing was polled, or the last poll was
    started no later than the deadline and the error comes one latency and
    one whole poll interval after the start of that poll. *)
Theorem wait_for_completion_timeout_time (fuel : nat) (self : AwapClient.t)
    (job_id : pyval) (poll_interval : Z) (timeout : option Z) (w w' : world)
    (message : string) :
  wait_for_completion E fuel self job_id poll_interval timeout w
  = Some (Raise (AwapTimeoutError message), w') ->
  let limit := 1000 * or_timeout timeout (AwapClient.timeout self) in
  limit < now w' - now w
  /\ (w' = w
      \/ exists last,
          now last - now w <= limit
          /\ sent w' = (sent last ++ [poll_request self job_id])%list
          /\ now w'
             = now last
               + Z.of_N (latency (remote E (List.length (sent last))
                                    (poll_request self job_id)))
               + 1000 * poll_interval).
Proof. unfold wait_for_completion. apply wait_loop_timeout_time. Qed.

Lemma wait_loop_never_terminal (self : AwapClient.t) (job_id : pyval)
    (poll_interval timeout start_time : Z) :
  never_terminal E self job_id ->
  0 < poll_interval ->
  forall (fuel : nat) (w : world),
    1000 * timeout - (now w - start_time) < 1000 * poll_interval * Z.of_nat fuel ->
    exists w',
      wait_loop E (S fuel) self job_id poll_interval timeout start_time w
      = Some (Raise (AwapTimeoutError
                       ("Job did not complete within " ++ str_of_Z timeout
                        ++ " seconds")), w').
Proof.
  intros Hnever Hpos. induction fuel as [|fuel IH]; intros w Hfuel.
  - exists w. cbn [wait_loop]. rewrite wait_turn_deadline by lia. reflexivity.
  - destruct (Z_lt_le_dec (1000 * timeout) (now w - start_time)) as [Hlate|Hin].
    + exists w. remember (S fuel) as n. cbn [wait_loop].
      rewrite wait_turn_deadline by exact Hlate. reflexivity.
    + destruct (Hnever (List.length (sent w)))
        as (r & kvs & Hout & Hcode & Hbody & Hnc & Hnf).
      remember (S fuel) as n. cbn [wait_loop].
      rewrite (wait_turn_not_terminal E self job_id poll_interval timeout
                 start_time w r kvs _ Hin ltac:(lia) Hout
                 (raise_for_status_2xx r Hcode) Hbody eq_refl Hnc Hnf).
      subst n. apply IH. cbn [now after_exchange]. lia.
Qed.

(** X18. Against a service that never reports the job as finished, and with
    a positive poll interval, [wait_for_completion] does not return: it
    raises [AwapTimeoutError], and only once the deadline has passed. *)
Theorem wait_for_completion_never_terminal (fuel : nat) (self : AwapClient.t)
    (job_id : pyval) (poll_interval : Z) (timeout : option Z) (w : world) :
  never_terminal E self job_id ->
  0 < poll_interval ->
  or_timeout timeout (AwapClient.timeout self) < poll_interval * Z.of_nat fuel ->
  exists w',
    wait_for_completion E (S fuel) self job_id poll_interval timeout w
    = Some (Raise (AwapTimeoutError
                     ("Job did not complete within "
                      ++ str_of_Z (or_timeout timeout (AwapClient.timeout self))
                      ++ " seconds")), w')
    /\ 1000 * or_timeout timeout (AwapClient.timeout self) < now w' - now w.
Proof.
  intros Hnever Hpos Hfuel. unfold wait_for_completion.
  destruct (wait_loop_never_terminal self job_id poll_interval
              (or_timeout timeout (AwapClient.timeout self)) (now w)
              Hnever Hpos fuel w ltac:(nia)) as [w' Hrun].
  exists w'. split; [exact Hrun|].
  exact (proj1 (wait_loop_timeout_time _ _ _ _ _ _ _ _ _ Hrun)).
Qed.

(** *** The whole workflow *)

Lemma get_results_success (self : AwapClient.t) (tma_id : pyval) (w : world)
    (r : Response) (data : pyval) :
  answers E w (results_request self tma_id) r ->
  json_body r = Some data ->
  get_results E self tma_id w
  = (MarkingResult.from_dict data,
     after_exchange E (results_request self tma_id) w).
Proof.
  intros [Hout Hcode] Hbody. unfold get_results, bind.
  unfold results_request in Hout.
  rewrite (_request_success E _ _ _ _ _ r Hout (raise_for_status_2xx r Hcode)).
  unfold Response_json. rewrite Hbody. reflexivity.
Qed.

Lemma wait_for_completion_first_poll (fuel : nat) (self : AwapClient.t)
    (job_id : pyval) (poll_interval : Z) (w : world) (r : Response)
    (kvs : list (string * pyval)) :
  0 <= AwapClient.timeout self ->
  answers E w (poll_request self job_id) r ->
  json_body r = Some (PDict kvs) ->
  dict_lookup "status" kvs = Some (PStr "completed") ->
  wait_for_completion E (S fuel) self job_id poll_interval None w
  = Some (Ok (PStr "completed"),
          after_exchange E (poll_request self job_id) w).
Proof.
  intros Htimeout [Hout Hcode] Hbody Hstatus.
  unfold wait_for_completion, or_timeout. cbn [wait_loop].
  unfold wait_turn, bind, time_time.
  rewrite gtb_false by lia.
  rewrite (get_job_status_success E _ _ _ r _ Hout
             (raise_for_status_2xx r Hcode) Hbody).
  unfold lift, py_get, get_default. rewrite Hstatus. reflexivity.
Qed.



(** X10. [from_dict] raises [AttributeError] when the response is not a
    JSON object, and also when its [feedback] is there but is not an object
    (null, say), whatever the other fields are: the default only replaces an
    absent [feedback]. *)
Theorem from_dict_feedback_not_object (data : pyval) :
  match data with
  | PDict kvs =>
      match dict_lookup "feedback" kvs with
      | Some (PDict _) | None => False
      | Some _ => True
      end
  | _ => True
  end ->
  MarkingResult.from_dict data = Raise (AttributeError "get").
Proof.
  unfold MarkingResult.from_dict.
  destruct data as [| | | | | |kvs]; try reflexivity.
  unfold py_get at 1. unfold get_default at 1.
  destruct (dict_lookup "feedback" kvs) as [[| | | | | |fb]|];
    intros H; try destruct H; reflexivity.
Qed.

(** X11. [from_dict] undoes the [feedback_dict] that the example script
    builds from a result before saving it: every result is recovered from
    its dictionary, field by field. *)
Theorem from_dict_feedback_dict (result : MarkingResult.t) :
  MarkingResult.from_dict (feedback_dict result) = Ok result.
Proof. destruct result as [? ? ? ? [? ? ? ?] ?]. reflexivity. Qed.

End MoreClientProperties.

(** * Further properties of the formatter and of the saved feedback *)

Section MoreFormatterProperties.

(** Reading a saved value back, for any value. *)
Lemma json_loads_dumps (v : pyval) :
  keys_distinct v = true ->
  floats_read_back v ->
  json_loads (json_dumps v) = Some v.
Proof.
  intros Hkeys Hfloats. unfold json_loads, json_dumps.
  pose proof (reads_back_all v Hkeys Hfloats) as Hread.
  pose proof (json_encode_start 0 v "" Hread) as Hstart.
  rewrite append_empty in Hstart. rewrite (skip_ws_value _ Hstart).
  specialize (Hread 0%nat "" (S (String.length (json_encode 0 v)))).
  rewrite append_empty in Hread. rewrite Hread; [reflexivity| |reflexivity].
  pose proof (size_le_length v Hfloats 0%nat). lia.
Qed.


(** X13. The style comes from the [format] entry of the configuration at
    construction: without a configuration, or without that entry, the
    plugin formats as markdown; an entry that is a list or a dict is only
    rejected when [format_feedback] is called, with a [TypeError]; any
    other entry that is not a string selects markdown. *)
Theorem format_type_from_config (config : option (list (string * pyval)))
    (results : pyval) :
  let self := FeedbackFormatterPlugin.__init__ config in
  let entries := match config with Some c => c | None => [] end in
  format_feedback self results
  = match dict_lookup "format" entries with
    | None => _format_markdown results
    | Some (PStr style) => formatter_of style results
    | Some (PList _) | Some (PDict _) => Raise (TypeError "unhashable type")
    | Some _ => _format_markdown results
    end.
Proof.
  intros self entries. subst self.
  unfold FeedbackFormatterPlugin.__init__. fold entries.
  unfold get_default.
  destruct (dict_lookup "format" entries) as [[| | | |style| |]|];
    try reflexivity.
  apply format_feedback_dispatch. reflexivity.
Qed.

(** *** Which records can be formatted *)

Lemma py_getitem_some (kvs : list (string * pyval)) (key : string) (v : pyval) :
  dict_lookup key kvs = Some v -> py_getitem (PDict kvs) key = Ok v.
Proof. intros H. unfold py_getitem. now rewrite H. Qed.

Lemma py_iter_iterable (v : pyval) :
  iterable v = true <-> exists items, py_iter v = Ok items.
Proof.
  split.
  - destruct v; try discriminate; intros _; eexists; reflexivity.
  - intros [items H]. destruct v; try discriminate H; reflexivity.
Qed.

(** The fields of a record that can be formatted. *)
Lemma formattable_fields (results : pyval) :
  formattable results = true <->
  exists kvs fb student_id marked_at score grade summary strengths areas,
    results = PDict kvs
    /\ dict_lookup "student_id" kvs = Some student_id
    /\ dict_lookup "marked_at" kvs = Some marked_at
    /\ dict_lookup "score" kvs = Some score
    /\ dict_lookup "grade" kvs = Some grade
    /\ dict_lookup "feedback" kvs = Some (PDict fb)
    /\ dict_lookup "summary" fb = Some summary
    /\ dict_lookup "strengths" fb = Some strengths
    /\ dict_lookup "areas_for_improvement" fb = Some areas
    /\ iterable strengths = true
    /\ iterable areas = true.
Proof.
  split.
  - destruct results as [| | | | | |kvs]; try discriminate.
    unfold formattable, absent, get_default.
    destruct (dict_lookup "student_id" kvs) as [v1|] eqn:E1; [|discriminate].
    destruct (dict_lookup "marked_at" kvs) as [v2|] eqn:E2; [|discriminate].
    destruct (dict_lookup "score" kvs) as [v3|] eqn:E3; [|discriminate].
    destruct (dict_lookup "grade" kvs) as [v4|] eqn:E4; [|discriminate].
    destruct (dict_lookup "feedback" kvs) as [[| | | | | |fb]|] eqn:E5;
      try discriminate.
    destruct (dict_lookup "summary" fb) as [v5|] eqn:E6; [|discriminate].
    destruct (dict_lookup "strengths" fb) as [v6|] eqn:E7; [|discriminate].
    destruct (dict_lookup "areas_for_improvement" fb) as [v7|] eqn:E8;
      [|cbn; rewrite andb_false_r; discriminate].
    cbn [negb andb]. intros H. apply andb_true_iff in H as [H6 H7].
    exists kvs, fb, v1, v2, v3, v4, v5, v6, v7. repeat split; assumption.
  - intros (kvs & fb & v1 & v2 & v3 & v4 & v5 & v6 & v7 & -> & H1 & H2 & H3
            & H4 & H5 & H6 & H7 & H8 & Hi7 & Hi8).
    unfold formattable, absent, get_default.
    rewrite H1, H2, H3, H4, H5, H6, H7, H8, Hi7, Hi8. reflexivity.
Qed.

(** Splits a successful [bind] into its two steps. *)
Ltac step_ok H :=
  match type of H with
  | bind_result ?c _ = Ok _ =>
      let E := fresh "E" in
      destruct c eqn:E; [cbn [bind_result] in H | discriminate H]
  end.

(** Gathers the fields a successful run has read into [formattable]. *)
Ltac gather_fields :=
  repeat match goal with
    | H : feedback_items _ _ = Ok _ |- _ =>
        unfold feedback_items in H; repeat step_ok H
    | H : py_iter _ = Ok _ |- _ =>
        apply (fun v items (Hi : py_iter v = Ok items) =>
                 proj2 (py_iter_iterable v) (ex_intro _ items Hi)) in H
    | H : py_getitem _ _ = Ok _ |- _ =>
        apply py_getitem_ok in H; destruct H as (? & ? & H)
    end;
  repeat match goal with
    | H : PDict _ = PDict _ |- _ => injection H as H; subst
    | H : Ok _ = Ok _ |- _ => injection H as H; subst
    end;
  repeat match goal with
    | H : dict_lookup ?k ?m = Some ?a, H' : dict_lookup ?k ?m = Some ?b |- _ =>
        rewrite H in H'; injection H' as H'; subst
    end.

(** Runs a formatter on a record whose fields are known. *)
Ltac run_formatter :=
  cbv zeta; unfold feedback_items;
  repeat match goal with
    | H : dict_lookup ?k ?m = Some ?v |- context [py_getitem (PDict ?m) ?k] =>
        rewrite (py_getitem_some m k v H)
    | H : py_iter ?v = Ok _ |- context [py_iter ?v] => rewrite H
    | |- context [bind_result (Ok _) _] => cbn [bind_result]
    | |- context [str_add _ (PStr _)] => cbn [str_add]
    end;
  eexists; reflexivity.

Lemma _format_markdown_formattable (results : pyval) :
  (exists text, _format_markdown results = Ok text)
  <-> formattable results = true.
Proof.
  rewrite formattable_fields. split.
  - intros [text H]. unfold _format_markdown in H. cbv zeta in H.
    repeat step_ok H. gather_fields. eauto 20.
  - intros (kvs & fb & v1 & v2 & v3 & v4 & v5 & v6 & v7 & -> & H1 & H2 & H3
            & H4 & H5 & H6 & H7 & H8 & Hi7 & Hi8).
    apply py_iter_iterable in Hi7 as [items7 Hi7].
    apply py_iter_iterable in Hi8 as [items8 Hi8].
    unfold _format_markdown. run_formatter.
Qed.

Lemma _format_html_formattable (results : pyval) :
  (exists text, _format_html results = Ok text)
  <-> formattable results = true.
Proof.
  rewrite formattable_fields. split.
  - intros [text H]. unfold _format_html in H. cbv zeta in H.
    repeat step_ok H. gather_fields. eauto 20.
  - intros (kvs & fb & v1 & v2 & v3 & v4 & v5 & v6 & v7 & -> & H1 & H2 & H3
            & H4 & H5 & H6 & H7 & H8 & Hi7 & Hi8).
    apply py_iter_iterable in Hi7 as [items7 Hi7].
    apply py_iter_iterable in Hi8 as [items8 Hi8].
    unfold _format_html. run_formatter.
Qed.

Lemma _format_plain_formattable (results : pyval) :
  (exists text, _format_plain results = Ok text)
  <-> formattable results = true.
Proof.
  rewrite formattable_fields. split.
  - intros [text H]. unfold _format_plain in H. cbv zeta in H.
    repeat step_ok H. gather_fields. eauto 20.
  - intros (kvs & fb & v1 & v2 & v3 & v4 & v5 & v6 & v7 & -> & H1 & H2 & H3
            & H4 & H5 & H6 & H7 & H8 & Hi7 & Hi8).
    apply py_iter_iterable in Hi7 as [items7 Hi7].
    apply py_iter_iterable in Hi8 as [items8 Hi8].
    unfold _format_plain. run_formatter.
Qed.

(** X14. For the markdown, HTML and plain styles (and for any unknown style,
    which is formatted as markdown) [format_feedback] returns a text exactly
    when the record is an object with [student_id], [marked_at], [score],
    [grade] and a [feedback] object with [summary], [strengths] and
    [areas_for_improvement], the last two being iterable: it never raises on
    such a record, whatever the types of the other values, and raises on
    every other one. *)
Theorem format_feedback_succeeds_iff (self : FeedbackFormatterPlugin.t)
    (style : string) (results : pyval) :
  FeedbackFormatterPlugin.format_type self = PStr style ->
  style <> "latex" ->
  style <> "json" ->
  ((exists text, format_feedback self results = Ok text)
   <-> formattable results = true).
Proof.
  intros Hstyle Hlatex Hjson.
  rewrite (format_feedback_dispatch self style results Hstyle).
  unfold formatter_of.
  destruct (String.eqb "markdown" style);
    [apply _format_markdown_formattable|].
  destruct (String.eqb "html" style); [apply _format_html_formattable|].
  destruct (String.eqb "latex" style) eqn:Hl;
    [apply String.eqb_eq in Hl; congruence|].
  destruct (String.eqb "plain" style); [apply _format_plain_formattable|].
  destruct (String.eqb "json" style) eqn:Hj;
    [apply String.eqb_eq in Hj; congruence|].
  apply _format_markdown_formattable.
Qed.

Lemma _format_latex_formattable (results : pyval) :
  (exists text, _format_latex results = Ok text)
  <-> latex_formattable results = true.
Proof.
  unfold latex_formattable. rewrite andb_true_iff, formattable_fields. split.
  - intros [text H]. unfold _format_latex in H. cbv zeta in H.
    repeat step_ok H.
    repeat match goal with
      | Hadd : str_add _ ?v = Ok _ |- _ =>
          destruct v; try discriminate Hadd; clear Hadd
      end.
    gather_fields. split; [eauto 20|].
    unfold get_default.
    repeat match goal with
      | Hk : dict_lookup ?k ?m = Some _ |- context [dict_lookup ?k ?m] =>
          rewrite Hk
      end.
    reflexivity.
  - intros [(kvs & fb & v1 & v2 & v3 & v4 & v5 & v6 & v7 & -> & H1 & H2 & H3
             & H4 & H5 & H6 & H7 & H8 & Hi7 & Hi8) Hstr].
    unfold get_default in Hstr. rewrite H1, H2, H4, H5, H6 in Hstr.
    destruct v2; try discriminate Hstr.
    destruct v1; try discriminate Hstr.
    destruct v4; try discriminate Hstr.
    destruct v5; try discriminate Hstr.
    apply py_iter_iterable in Hi7 as [items7 Hi7].
    apply py_iter_iterable in Hi8 as [items8 Hi8].
    unfold _format_latex. run_formatter.
Qed.

(** X15. The LaTeX style is stricter: [format_feedback] returns a text
    exactly when the record can be formatted as markdown and, besides,
    [marked_at], [student_id], [grade] and the feedback [summary] are
    strings; a number there makes it raise, the fields being spliced with
    [+].  The score alone may be of any type. *)
Theorem format_feedback_latex_succeeds_iff (self : FeedbackFormatterPlugin.t)
    (results : pyval) :
  FeedbackFormatterPlugin.format_type self = PStr "latex" ->
  ((exists text, format_feedback self results = Ok text)
   <-> latex_formattable results = true).
Proof.
  intros Hstyle.
  rewrite (format_feedback_dispatch self "latex" results Hstyle).
  apply _format_latex_formattable.
Qed.

End MoreFormatterProperties.

End Suite.

(** * Examples on concrete environments *)

(** C1 fails as stated: against a service whose job never leaves [running],
    with [poll_interval=5] and [timeout=1], no run of [wait_for_completion]
    raises [AwapTimeoutError] before a full poll interval (5000 ms) has
    passed since the call. *)
Lemma wait_for_completion_timeout_not_before_poll_interval :
  ~ (exists fuel message w',
        wait_for_completion sample_float_repr stalled_env fuel sample_client
          (PStr "job_1") 5 (Some 1) world0
        = Some (Raise (AwapTimeoutError message), w')
        /\ now w' - now world0 < 5000).
Proof.
  intros [fuel [message [w' [Hrun Hsoon]]]].
  destruct fuel as [|[|fuel]]; vm_compute in Hrun; try discriminate.
  inversion Hrun; subst. vm_compute in Hsoon. discriminate.
Qed.

Lemma wait_for_completion_timeout_after_sleep_witness :
  exists w',
    wait_for_completion sample_float_repr stalled_env 2 sample_client
      (PStr "job_1") 5 (Some 1) world0
    = Some (Raise (AwapTimeoutError "Job did not complete within 1 seconds"), w')
    /\ sent w'
       = (sent world0
          ++ [poll_request sample_float_repr sample_client (PStr "job_1")])%list
    /\ now w' - now world0
       = Z.of_N (latency (remote stalled_env (List.length (sent world0))
                            (poll_request sample_float_repr sample_client
                               (PStr "job_1")))) + 5000
    /\ 5000 <= now w' - now world0.
Proof.
  apply (wait_for_completion_timeout_after_sleep sample_float_repr stalled_env
           0 sample_client (PStr "job_1") world0
           (mkResponse 200 "OK" "http://localhost:8080/api/v1/jobs/job_1"
              (Some (PDict [("status", PStr "running")])))
           [("status", PStr "running")] (PStr "running"));
    reflexivity.
Defined.

(** C2 fails as stated: when the poll reports [failed] with the error
    [disk full], the message of the [AwapAPIError] is not [disk full]. *)
Lemma wait_for_completion_failed_message_not_exact :
  ~ (exists fuel status_code w',
        wait_for_completion sample_float_repr failing_env fuel sample_client
          (PStr "job_1") 5 None world0
        = Some (Raise (AwapAPIError "disk full" status_code), w')).
Proof.
  intros [fuel [status_code [w' Hrun]]].
  destruct fuel as [|fuel]; vm_compute in Hrun; discriminate.
Qed.

Lemma wait_loop_failed_job_message_witness :
  wait_loop sample_float_repr failing_env 1 sample_client (PStr "job_1") 5 300 0
    world0
  = Some (Raise (AwapAPIError "Job failed: disk full" None),
          after_exchange failing_env
            (poll_request sample_float_repr sample_client (PStr "job_1"))
            world0).
Proof.
  apply (wait_loop_failed_job_message sample_float_repr failing_env 0
           sample_client (PStr "job_1") 5 300 0 world0
           (mkResponse 200 "OK" "http://localhost:8080/api/v1/jobs/job_1"
              (Some (PDict [("status", PStr "failed");
                            ("error", PStr "disk full")])))
           [("status", PStr "failed"); ("error", PStr "disk full")]
           "disk full");
    solve [reflexivity | simpl; lia].
Defined.

Lemma mark_tma_no_wait_partial_result_witness :
  mark_tma sample_float_repr accepting_env 0 sample_client "essay.pdf"
    "student001" "default" false world0
  = Some (Ok (MarkingResult.mk (PStr "tma_123456") (PStr "student001")
                (PFloat 0%float) (PStr "")
                (Feedback.mk (PStr "") (PList []) (PList []) (PList []))
                (PStr "")),
          after_exchange accepting_env
            (mark_request sample_float_repr sample_client (PStr "tma_123456")
               "default" true)
            (after_exchange accepting_env
               (upload_request sample_client "essay.pdf" "%PDF-1.4"
                  "student001" "default") world0))
  /\ exists f,
      sent (after_exchange accepting_env
              (mark_request sample_float_repr sample_client (PStr "tma_123456")
                 "default" true)
              (after_exchange accepting_env
                 (upload_request sample_client "essay.pdf" "%PDF-1.4"
                    "student001" "default") world0))
      = (sent world0
         ++ [upload_request sample_client "essay.pdf" f "student001" "default";
             mark_request sample_float_repr sample_client (PStr "tma_123456")
               "default" true])%list.
Proof.
  apply (mark_tma_no_wait_partial_result sample_float_repr accepting_env 0
           sample_client "essay.pdf" "student001" "default" world0
           (after_exchange accepting_env
              (upload_request sample_client "essay.pdf" "%PDF-1.4"
                 "student001" "default") world0)
           _ (PStr "tma_123456") (PStr "job_1"));
    reflexivity.
Defined.

Lemma upload_tma_absent_file_witness :
  path_lookup empty_env "/no/such/file.pdf" = None
  /\ upload_tma empty_env sample_client "/no/such/file.pdf" "student001"
       "default" world0
     = (Raise (FileNotFoundError "TMA file not found: /no/such/file.pdf"),
        world0).
Proof.
  split; [reflexivity|].
  apply (upload_tma_absent_file empty_env sample_client "/no/such/file.pdf"
           "student001" "default" world0).
  reflexivity.
Defined.


Lemma wait_for_completion_returns_completed_witness :
  wait_for_completion sample_float_repr completed_env 1 sample_client
    (PStr "job_1") 5 None world0
  = Some (Ok (PStr "completed"),
          after_exchange completed_env
            (poll_request sample_float_repr sample_client (PStr "job_1"))
            world0)
  /\ PStr "completed" = PStr "completed".
Proof.
  split; [reflexivity|].
  apply (wait_for_completion_returns_completed sample_float_repr completed_env
           1 sample_client (PStr "job_1") 5 None world0
           (after_exchange completed_env
              (poll_request sample_float_repr sample_client (PStr "job_1"))
              world0)
           (PStr "completed")).
  reflexivity.
Defined.

Lemma from_dict_defaults_feedback_only_witness :
  MarkingResult.from_dict (PDict sample_response_no_feedback)
  = Ok (MarkingResult.mk (PStr "tma_123456") (PStr "student001") (PInt 85)
          (PStr "B+")
          (Feedback.mk (PStr "") (PList []) (PList []) (PList []))
          (PStr "2024-05-01T10:00:00"))
  /\ (exists first,
        In first ["tma_id"; "student_id"; "score"; "grade"; "marked_at"]
        /\ dict_lookup first sample_response_no_grade = None
        /\ MarkingResult.from_dict (PDict sample_response_no_grade)
           = Raise (KeyError first)).
Proof.
  split.
  - apply (proj1 (from_dict_defaults_feedback_only sample_float_repr empty_env
                    sample_response_no_feedback []
                    (or_introl (conj eq_refl eq_refl))));
      reflexivity.
  - apply (proj1 (proj2 (from_dict_defaults_feedback_only sample_float_repr
                           empty_env sample_response_no_grade
                           [("summary", PStr "Good work")]
                           (or_intror eq_refl)))
             "grade");
      [simpl; auto | reflexivity].
Defined.




Lemma format_feedback_unknown_style_is_markdown_witness :
  ~ In "xml" known_styles
  /\ format_feedback sample_float_repr (plugin_for "xml") sample_results
     = format_feedback sample_float_repr (plugin_for "markdown") sample_results.
Proof.
  assert (Hunknown : ~ In "xml" known_styles).
  { simpl. intros [H|[H|[H|[H|[H|[]]]]]]; discriminate H. }
  split; [exact Hunknown|].
  apply (format_feedback_unknown_style_is_markdown sample_float_repr
           (plugin_for "xml") (plugin_for "markdown") "xml" sample_results);
    [reflexivity | reflexivity | exact Hunknown].
Defined.

(** * Examples for the further properties *)

Lemma _request_raises_only_api_error_witness :
  (exists text,
      outcome (remote not_found_env (List.length (sent world0))
                 (request_of sample_client "GET" "/api/v1/jobs/job_1" NoBody))
      = RequestException text
      /\ AwapAPIError
           "API request failed: 404 Client Error: Not Found for url: http://localhost:8080/api/v1/jobs/job_1"
           None
         = AwapAPIError ("Request failed: " ++ text) None)
  \/ (exists r text,
        outcome (remote not_found_env (List.length (sent world0))
                   (request_of sample_client "GET" "/api/v1/jobs/job_1" NoBody))
        = Responded r
        /\ raise_for_status r = Some text
        /\ AwapAPIError
             "API request failed: 404 Client Error: Not Found for url: http://localhost:8080/api/v1/jobs/job_1"
             None
           = AwapAPIError ("API request failed: " ++ text) None).
Proof.
  apply (_request_raises_only_api_error not_found_env sample_client "GET"
           "/api/v1/jobs/job_1" NoBody world0
           (after_exchange not_found_env
              (request_of sample_client "GET" "/api/v1/jobs/job_1" NoBody)
              world0)).
  reflexivity.
Defined.

Lemma one_exchange_per_operation_witness :
  snd (upload_tma forgetful_env sample_client "essay.pdf" "student001"
         "default" world0)
  = after_exchange forgetful_env
      (upload_request sample_client "essay.pdf" "%PDF-1.4" "student001"
         "default") world0
  /\ snd (get_job_status sample_float_repr not_found_env sample_client
            (PStr "job_1") world0)
     = after_exchange not_found_env
         (poll_request sample_float_repr sample_client (PStr "job_1")) world0.
Proof.
  split.
  - apply (proj1 (one_exchange_per_operation sample_float_repr forgetful_env
                    sample_client world0)).
    reflexivity.
  - apply (proj1 (proj2 (proj2 (one_exchange_per_operation sample_float_repr
                                  not_found_env sample_client world0)))).
Defined.

Lemma handle_returned_when_truthy_witness :
  fst (upload_tma accepting_env sample_client "essay.pdf" "student001"
         "default" world0)
  = Ok (PStr "tma_123456")
  /\ fst (submit_for_marking sample_float_repr forgetful_env sample_client
            (PStr "tma_123456") "default" true world0)
     = Raise (AwapAPIError "No job ID returned" None).
Proof.
  split.
  - apply (proj1 (handle_returned_when_truthy sample_float_repr accepting_env
                    sample_client world0
                    (mkResponse 200 "OK"
                       "http://localhost:8080/api/v1/tma/upload"
                       (Some (PDict [("tma_id", PStr "tma_123456")])))
                    [("tma_id", PStr "tma_123456")]
                    ltac:(simpl; lia) eq_refl)
             "essay.pdf" "%PDF-1.4" "student001" "default");
      reflexivity.
  - apply (proj2 (handle_returned_when_truthy sample_float_repr forgetful_env
                    sample_client world0
                    (mkResponse 200 "OK"
                       "http://localhost:8080/api/v1/tma/tma_123456/mark"
                       (Some (PDict [])))
                    [] ltac:(simpl; lia) eq_refl)
             (PStr "tma_123456") "default" true);
      reflexivity.
Defined.

Lemma upload_tma_unexpected_body_witness :
  exists e,
    fst (upload_tma html_env sample_client "essay.pdf" "student001" "default"
           world0) = Raise e
    /\ is_AwapError e = false
    /\ e = JSONDecodeError.
Proof.
  apply (upload_tma_unexpected_body html_env sample_client "essay.pdf"
           "%PDF-1.4" "student001" "default" world0
           (mkResponse 200 "OK" "http://localhost:8080/api/v1/tma/upload" None));
    solve [reflexivity | simpl; lia | exact I].
Defined.

Lemma wait_for_completion_negative_timeout_witness :
  wait_for_completion sample_float_repr completed_env 1 sample_client
    (PStr "job_1") 5 (Some (-1)) world0
  = Some (Raise (AwapTimeoutError "Job did not complete within -1 seconds"),
          world0).
Proof.
  apply (wait_for_completion_negative_timeout sample_float_repr completed_env
           0 sample_client (PStr "job_1") 5 (-1) world0).
  lia.
Defined.


Lemma wait_for_completion_returns_by_deadline_witness :
  exists last,
    now last - now world0 <= 1000 * or_timeout None (AwapClient.timeout sample_client)
    /\ after_exchange completed_env
         (poll_request sample_float_repr sample_client (PStr "job_1")) world0
       = after_exchange completed_env
           (poll_request sample_float_repr sample_client (PStr "job_1")) last.
Proof.
  apply (wait_for_completion_returns_by_deadline sample_float_repr
           completed_env 1 sample_client (PStr "job_1") 5 None world0
           (after_exchange completed_env
              (poll_request sample_float_repr sample_client (PStr "job_1"))
              world0)
           (PStr "completed")).
  reflexivity.
Defined.

Lemma wait_for_completion_poll_bound_witness :
  requests_issued world0
    (mkWorld 10000
       [poll_request sample_float_repr sample_client (PStr "job_1");
        poll_request sample_float_repr sample_client (PStr "job_1")])
  <= or_timeout (Some 7) (AwapClient.timeout sample_client) / 5 + 1.
Proof.
  apply (wait_for_completion_poll_bound sample_float_repr stalled_env 3
           sample_client (PStr "job_1") 5 (Some 7) world0
           (mkWorld 10000
              [poll_request sample_float_repr sample_client (PStr "job_1");
               poll_request sample_float_repr sample_client (PStr "job_1")])
           (Raise (AwapTimeoutError "Job did not complete within 7 seconds")));
    solve [reflexivity | simpl; lia].
Defined.

Lemma wait_loop_failed_job_any_error_witness :
  wait_loop sample_float_repr failing_silent_env 1 sample_client (PStr "job_1")
    5 300 0 world0
  = Some (Raise (AwapAPIError "Job failed: Unknown error" None),
          after_exchange failing_silent_env
            (poll_request sample_float_repr sample_client (PStr "job_1"))
            world0).
Proof.
  apply (wait_loop_failed_job_any_error sample_float_repr failing_silent_env 0
           sample_client (PStr "job_1") 5 300 0 world0
           (mkResponse 200 "OK" "http://localhost:8080/api/v1/jobs/job_1"
              (Some (PDict [("status", PStr "failed")])))
           [("status", PStr "failed")]);
    solve [reflexivity | simpl; lia | split; [reflexivity | simpl; lia]].
Defined.

Lemma wait_for_completion_timeout_time_witness :
  let w' :=
    mkWorld 10000
      [poll_request sample_float_repr sample_client (PStr "job_1");
       poll_request sample_float_repr sample_client (PStr "job_1")] in
  1000 * or_timeout (Some 7) (AwapClient.timeout sample_client)
  < now w' - now world0
  /\ (w' = world0
      \/ exists last,
          now last - now world0
          <= 1000 * or_timeout (Some 7) (AwapClient.timeout sample_client)
          /\ sent w'
             = (sent last
                ++ [poll_request sample_float_repr sample_client (PStr "job_1")])%list
          /\ now w'
             = now last
               + Z.of_N (latency (remote stalled_env (List.length (sent last))
                                    (poll_request sample_float_repr
                                       sample_client (PStr "job_1"))))
               + 1000 * 5).
Proof.
  apply (wait_for_completion_timeout_time sample_float_repr stalled_env 3
           sample_client (PStr "job_1") 5 (Some 7) world0
           (mkWorld 10000
              [poll_request sample_float_repr sample_client (PStr "job_1");
               poll_request sample_float_repr sample_client (PStr "job_1")])
           "Job did not complete within 7 seconds").
  reflexivity.
Defined.

Lemma wait_for_completion_never_terminal_witness :
  exists w',
    wait_for_completion sample_float_repr stalled_env 3 sample_client
      (PStr "job_1") 5 (Some 7) world0
    = Some (Raise (AwapTimeoutError
                     ("Job did not complete within "
                      ++ str_of_Z (or_timeout (Some 7)
                                     (AwapClient.timeout sample_client))
                      ++ " seconds")), w')
    /\ 1000 * or_timeout (Some 7) (AwapClient.timeout sample_client)
       < now w' - now world0.
Proof.
  apply (wait_for_completion_never_terminal sample_float_repr stalled_env 2
           sample_client (PStr "job_1") 5 (Some 7) world0
           ltac:(intros n; eexists; eexists;
                 split; [reflexivity|]; split; [simpl; lia|]; repeat split));
    simpl; lia.
Defined.



Lemma from_dict_feedback_not_object_witness :
  MarkingResult.from_dict sample_response_null_feedback
  = Raise (AttributeError "get").
Proof.
  apply (from_dict_feedback_not_object sample_response_null_feedback).
  exact I.
Defined.


Lemma format_feedback_succeeds_iff_witness :
  (exists text,
      format_feedback sample_float_repr (plugin_for "plain")
        results_with_numeric_id = Ok text)
  /\ ~ (exists text,
           format_feedback sample_float_repr (plugin_for "html")
             results_without_student_id = Ok text).
Proof.
  split.
  - apply (format_feedback_succeeds_iff sample_float_repr (plugin_for "plain")
             "plain" results_with_numeric_id);
      solve [reflexivity | discriminate].
  - intros H.
    apply (format_feedback_succeeds_iff sample_float_repr (plugin_for "html")
             "html" results_without_student_id) in H;
      solve [discriminate H | reflexivity | discriminate].
Defined.

Lemma format_feedback_latex_succeeds_iff_witness :
  (exists text,
      format_feedback sample_float_repr (plugin_for "latex") sample_results
      = Ok text)
  /\ ~ (exists text,
           format_feedback sample_float_repr (plugin_for "latex")
             results_with_numeric_id = Ok text).
Proof.
  split.
  - apply (format_feedback_latex_succeeds_iff sample_float_repr
             (plugin_for "latex") sample_results);
      reflexivity.
  - intros H.
    apply (format_feedback_latex_succeeds_iff sample_float_repr
             (plugin_for "latex") results_with_numeric_id) in H;
      solve [discriminate H | reflexivity].
Defined.
